(** * Todoist utilities: the report pipeline and the one-way sync pipeline

    A shallow embedding of the two Google Apps Script programs of the
    repository (both named [Code.js]):

    - the report script ([createTodoistReport] and its helpers), which groups
      the open Todoist tasks by project, writes them to a spreadsheet and
      exports it as a PDF;
    - the sync script ([syncGoogleTasksToTodoist] and its helpers), which
      moves the tasks of one Google Tasks list to Todoist.

    JavaScript strings are sequences of UTF-16 code units, objects used as
    dictionaries are finite maps of own properties in front of
    [Object.prototype], and every call to a platform service is an event of
    the run's trace, answered by the environment. *)

From Stdlib Require Import ZArith NArith String Ascii DecimalString List Lia.
From stdpp Require Import gmap list.

Set Default Proof Using "Type".

(** ** JavaScript strings *)

Module JS.

(** A string value is a sequence of UTF-16 code units. *)
Abbreviation jsstring := (list N).

(** A string literal of the source whose characters are all ASCII. *)
Definition lit (s : string) : jsstring :=
  map N_of_ascii (list_ascii_of_string s).

Definition LF : N := 10%N.

(** ToBoolean on a string: only the empty string is falsy. *)
Definition truthy (s : jsstring) : bool :=
  match s with [] => false | _ :: _ => true end.

(** ToBoolean on a value that is a string, [undefined] or [null]. *)
Definition truthy_opt (o : option jsstring) : bool :=
  match o with Some s => truthy s | None => false end.

(** WhiteSpace and LineTerminator code points of ECMAScript, the characters
    removed by [String.prototype.trim]. *)
Definition is_whitespace (c : N) : bool :=
  ((9 <=? c) && (c <=? 13) || (c =? 32) || (c =? 160) || (c =? 5760)
   || (8192 <=? c) && (c <=? 8202) || (c =? 8232) || (c =? 8233)
   || (c =? 8239) || (c =? 8287) || (c =? 12288) || (c =? 65279))%N.

Fixpoint trimStart (s : jsstring) : jsstring :=
  match s with
  | [] => []
  | c :: s' => if is_whitespace c then trimStart s' else s
  end.

Fixpoint trimEnd (s : jsstring) : jsstring :=
  match s with
  | [] => []
  | c :: s' =>
      match trimEnd s' with
      | [] => if is_whitespace c then [] else [c]
      | t => c :: t
      end
  end.

(** [String.prototype.trim]. *)
Definition trim (s : jsstring) : jsstring := trimEnd (trimStart s).

(** [s.substring(a, b)] for non-negative integer arguments: both are clamped
    to the length and swapped when out of order. *)
Definition substring (s : jsstring) (a b : nat) : jsstring :=
  let a' := a `min` length s in
  let b' := b `min` length s in
  let from := a' `min` b' in
  let to := a' `max` b' in
  take (to - from) (drop from s).

Fixpoint startsWith (p s : jsstring) : bool :=
  match p, s with
  | [], _ => true
  | c :: p', d :: s' => (c =? d)%N && startsWith p' s'
  | _ :: _, [] => false
  end.

(** [s.includes(p)]. *)
Fixpoint includes (p s : jsstring) : bool :=
  startsWith p s || match s with [] => false | _ :: s' => includes p s' end.

(** ToString on a Number that holds an integer: shortest decimal notation,
    with a minus sign below zero. *)
Definition Number_toString (z : Z) : jsstring :=
  lit (NilZero.string_of_int (Z.to_int z)).

(** *** Dates

    A [Date] object, seen through [getFullYear], [getMonth] (0 to 11) and
    [getDate] (day of the month) in the script's time zone. *)
Record Date := mkDate { getFullYear : Z; getMonth : Z; getDate : Z }.

Definition leap (y : Z) : bool :=
  ((y mod 4 =? 0) && negb (y mod 100 =? 0) || (y mod 400 =? 0))%Z.

Definition daysInMonth (y m : Z) : Z :=
  (if m =? 1 then (if leap y then 29 else 28)
   else if (m =? 3) || (m =? 5) || (m =? 8) || (m =? 10) then 30
   else 31)%Z.

Definition prevMonth (y m : Z) : Z * Z :=
  (if m =? 0 then (y - 1, 11) else (y, m - 1))%Z.

Definition nextMonth (y m : Z) : Z * Z :=
  (if m =? 11 then (y + 1, 0) else (y, m + 1))%Z.

(** MakeDay: day [d] counted from the first of month [m] of year [y], where
    [d] may lie outside the month. Every step moves by one month, so
    [fuel] steps suffice when [fuel] bounds the distance of [d] from the
    month. *)
Fixpoint normalizeDay (fuel : nat) (y m d : Z) : Date :=
  match fuel with
  | O => mkDate y m d
  | S fuel' =>
      if (d <? 1)%Z then
        let '(y', m') := prevMonth y m in
        normalizeDay fuel' y' m' (d + daysInMonth y' m')
      else if (daysInMonth y m <? d)%Z then
        let '(y', m') := nextMonth y m in
        normalizeDay fuel' y' m' (d - daysInMonth y m)
      else mkDate y m d
  end.

(** [date.setDate(d)], returning the updated object. *)
Definition setDate (t : Date) (d : Z) : Date :=
  normalizeDay (S (Z.to_nat (Z.abs d))) (getFullYear t) (getMonth t) d.

End JS.
Export JS.

(** ** Values exchanged with the platform services *)

(** A thrown value: an error object with its [name] and [message]. *)
Record Exn := Error { exn_name : jsstring; message : jsstring }.

(** How the evaluation of a call ends: normally with a value, or abruptly
    with a thrown error. *)
Inductive Completion (A : Type) : Type :=
| Normal (a : A)
| Throw (e : Exn).
Arguments Normal {A} a.
Arguments Throw {A} e.

(** A link of a Google task: [{type, link}]. *)
Record Link := { link_type : jsstring; link_url : jsstring }.

(** A task of the Google Tasks API; a field absent from the JSON is [None]. *)
Record GTask := {
  task_id : jsstring;
  task_title : option jsstring;
  task_notes : option jsstring;
  task_due : option jsstring;
  task_links : option (list Link)
}.

(** A task list of the Google Tasks API. *)
Record TaskList := { list_id : jsstring; list_title : jsstring }.

(** The object posted to Todoist; [due_date] is attached only sometimes. *)
Record TodoistPayload := {
  content : jsstring;
  description : jsstring;
  due_date : option jsstring
}.

Record HTTPResponse := { getResponseCode : Z; getContentText : jsstring }.

(** A project and a task of the Todoist REST API. *)
Record Project := { project_id_of : jsstring; project_name : jsstring }.
Record Due := { due_string : jsstring }.
Record TodoistTask := {
  todoist_content : jsstring;
  todoist_project_id : jsstring;
  todoist_due : option Due
}.

(** A row of the report: [{content, due}]. *)
Record TaskRow := { row_content : jsstring; row_due : jsstring }.

Record Folder := { folder_id : jsstring; folder_name : jsstring }.
Record DriveFile := { file_id : jsstring; file_name : jsstring }.
Record Spreadsheet := { getId : jsstring; getName : jsstring }.

(** ** Log lines

    One constructor for each message the scripts write, with the values
    interpolated into it. *)
Inductive Channel := LoggerLog | ConsoleLog | ConsoleError.

Inductive Msg :=
(* report script *)
| MsgSetProperties
| MsgStarting
| MsgNoTasksAborting
| MsgReportCreated
| MsgErrorOccurred (e : Exn)
| MsgStack (e : Exn)
| MsgCleanedUp (fileName : jsstring)
| MsgNoReportFromYesterday
| MsgCouldNotCleanUp (e : Exn)
| MsgFetchingProjects
| MsgFetchingTasks
| MsgFoundUncompleted (n : nat)
| MsgCreatingSpreadsheet (sheetName : jsstring)
| MsgPopulated
| MsgExporting
| MsgPdfCreated (name folder : jsstring)
| MsgFolderNotFound (folderId : jsstring)
(* sync script *)
| MsgConfigIncomplete
| MsgListNotFound (listName : jsstring)
| MsgFoundList (listName taskListId : jsstring)
| MsgNoTasksToSync
| MsgFoundToSync (n : nat)
| MsgProcessing (title : jsstring)
| MsgFoundLinkedEmail (emailUrl : jsstring)
| MsgCreatedInTodoist (title body : jsstring)
| MsgDeletedFromGoogle (title : jsstring)
| MsgFailedToDelete (taskId : jsstring) (e : Exn)
| MsgFailedToCreate (title : jsstring)
| MsgSyncError (e : Exn)
| MsgNoTaskLists
| MsgErrorFetchingLists (e : Exn)
| MsgTodoistStatus (code : Z) (body : jsstring)
| MsgTodoistCallFailed (e : Exn).

(** ** Events of a run

    Every service call is recorded with what it returned. *)
Inductive Event :=
| Log (c : Channel) (m : Msg)
(* Tasks service *)
| TasklistsList (out : Completion (option (list TaskList)))
| TasksList (taskListId : jsstring) (out : Completion (option (list GTask)))
| TasksRemove (taskListId taskId : jsstring) (out : Completion unit)
(* UrlFetchApp *)
| FetchPost (payload : TodoistPayload) (apiToken : jsstring)
            (out : Completion HTTPResponse)
| FetchProjects (apiToken : jsstring) (out : Completion (list Project))
| FetchTasks (apiToken : jsstring) (out : Completion (list TodoistTask))
(* DriveApp *)
| GetFolderById (folderId : jsstring) (out : Completion Folder)
| GetFilesByName (folder : Folder) (fileName : jsstring)
                 (out : Completion (list DriveFile))
| SetTrashed (fileId : jsstring) (out : Completion unit)
| CreateFile (folder : Folder) (fileName : jsstring)
             (out : Completion DriveFile)
(* SpreadsheetApp *)
| SpreadsheetCreate (sheetName : jsstring) (out : Completion jsstring)
| SheetPopulate (spreadsheetId : jsstring)
                (tasksByProject : gmap jsstring (list TaskRow))
                (out : Completion unit)
| GetBlob (spreadsheetId : jsstring) (out : Completion unit).

(** ** The environment

    What the platform answers. An answer may depend on everything that
    happened earlier in the run. *)
Record Env := {
  getProperty : jsstring -> option jsstring;
  clock : list Event -> Date;
  tasklists_list : list Event -> Completion (option (list TaskList));
  tasks_list_error : list Event -> jsstring -> option Exn;
  tasks_remove_error : list Event -> jsstring -> jsstring -> option Exn;
  fetch_post : list Event -> TodoistPayload -> jsstring
               -> Completion HTTPResponse;
  fetch_projects : list Event -> jsstring -> Completion (list Project);
  fetch_tasks : list Event -> jsstring -> Completion (list TodoistTask);
  drive_getFolderById : list Event -> jsstring -> Completion Folder;
  drive_getFilesByName : list Event -> Folder -> jsstring
                         -> Completion (list DriveFile);
  drive_setTrashed : list Event -> jsstring -> Completion unit;
  drive_createFile : list Event -> Folder -> jsstring -> Completion DriveFile;
  spreadsheet_create : list Event -> jsstring -> Completion jsstring;
  sheet_populate : list Event -> jsstring -> gmap jsstring (list TaskRow)
                   -> Completion unit;
  spreadsheet_getBlob : list Event -> jsstring -> Completion unit
}.

(** ** The state of a run

    [gtasks] is the source list as Google Tasks holds it: its uncompleted,
    visible tasks in the order the listing returns them. [trace] is what the
    run has done so far. *)
Record State := { gtasks : list GTask; trace : list Event }.

Definition emit (ev : Event) (s : State) : State :=
  {| gtasks := gtasks s; trace := trace s ++ [ev] |}.

(** Statements of the scripts: they read and change the state and complete
    normally or throw. *)
Definition M (A : Type) : Type := State -> Completion A * State.

Definition ret {A} (a : A) : M A := fun s => (Normal a, s).

Definition throw {A} (e : Exn) : M A := fun s => (Throw e, s).

Definition bind {A B} (m : M A) (k : A -> M B) : M B :=
  fun s =>
    match m s with
    | (Normal a, s') => k a s'
    | (Throw e, s') => (Throw e, s')
    end.

(** [try { m } catch (e) { h e }] *)
Definition try_catch {A} (m : M A) (h : Exn -> M A) : M A :=
  fun s =>
    match m s with
    | (Normal a, s') => (Normal a, s')
    | (Throw e, s') => h e s'
    end.

Declare Scope js_scope.
Delimit Scope js_scope with js.
Notation "'let*' x ':=' m 'in' k" := (bind m (fun x => k))
  (at level 10, x name, m at level 100, k at level 200) : js_scope.
Notation "m ';;' k" := (bind m (fun _ => k))
  (at level 100, k at level 200, right associativity) : js_scope.
Open Scope js_scope.

(** A service call: ask the environment, record the call and its answer. *)
Definition call {A} (answer : list Event -> Completion A)
    (ev : Completion A -> Event) : M A :=
  fun s => let out := answer (trace s) in (out, emit (ev out) s).

Definition log (c : Channel) (m : Msg) : M unit :=
  fun s => (Normal tt, emit (Log c m) s).

(** [array.forEach(f)]: a throwing callback ends the iteration. *)
Fixpoint forEach {A} (f : A -> M unit) (l : list A) : M unit :=
  match l with
  | [] => ret tt
  | x :: l' => f x ;; forEach f l'
  end.

(** ** The sync script: Google Tasks to Todoist *)

Module Sync.

(** [Tasks.Tasklists.list()]; the result's [items] may be absent. *)
Definition Tasklists_list (env : Env) : M (option (list TaskList)) :=
  call (tasklists_list env) TasklistsList.

(** [Tasks.Tasks.list(taskListId, {showCompleted: false, showHidden: false})],
    reduced to the [items] of its result, which the service leaves out when
    the list holds no such task. *)
Definition Tasks_list (env : Env) (taskListId : jsstring)
    : M (option (list GTask)) :=
  fun s =>
    let out :=
      match tasks_list_error env (trace s) taskListId with
      | Some e => Throw e
      | None => Normal (match gtasks s with [] => None | l => Some l end)
      end in
    (out, emit (TasksList taskListId out) s).

(** [Tasks.Tasks.remove(taskListId, taskId)]: when the service accepts the
    call the task leaves the source list. *)
Definition Tasks_remove (env : Env) (taskListId taskId : jsstring) : M unit :=
  fun s =>
    match tasks_remove_error env (trace s) taskListId taskId with
    | Some e => (Throw e, emit (TasksRemove taskListId taskId (Throw e)) s)
    | None =>
        (Normal tt,
         {| gtasks := filter (fun t => task_id t <> taskId) (gtasks s);
            trace := trace s ++ [TasksRemove taskListId taskId (Normal tt)] |})
    end.

(** [UrlFetchApp.fetch(TODOIST_API_URL, options)] with method [post]. *)
Definition UrlFetchApp_post (env : Env) (payload : TodoistPayload)
    (apiToken : jsstring) : M HTTPResponse :=
  call (fun tr => fetch_post env tr payload apiToken)
       (FetchPost payload apiToken).

Definition getTaskListIdByName_ (env : Env) (listName : jsstring)
    : M (option jsstring) :=
  try_catch
    (let* taskLists := Tasklists_list env in
     match taskLists with
     | None => log ConsoleLog MsgNoTaskLists ;; ret None
     | Some items =>
         let foundList :=
           find (fun l => bool_decide (list_title l = listName)) items in
         ret (match foundList with
              | Some l => Some (list_id l)
              | None => None
              end)
     end)
    (fun e => log ConsoleError (MsgErrorFetchingLists e) ;; ret None).

Definition createTodoistTask_ (env : Env) (payload : TodoistPayload)
    (apiToken : jsstring) : M (option HTTPResponse) :=
  try_catch
    (let* response := UrlFetchApp_post env payload apiToken in
     let responseCode := getResponseCode response in
     if (responseCode =? 200)%Z then ret (Some response)
     else
       log ConsoleError
           (MsgTodoistStatus responseCode (getContentText response)) ;;
       ret None)
    (fun e => log ConsoleError (MsgTodoistCallFailed e) ;; ret None).

(** [task.links.find(link => link.type === 'email')], guarded by
    [if (task.links)]. *)
Definition emailLink (task : GTask) : option Link :=
  match task_links task with
  | None => None
  | Some links =>
      find (fun link => bool_decide (link_type link = lit "email")) links
  end.

(** The separator ["\n\n---\n"]. *)
Definition separator : jsstring := [LF; LF] ++ lit "---" ++ [LF].

Definition annotation (emailUrl : jsstring) : jsstring :=
  lit "Linked Email: " ++ emailUrl.

(** The value of [description] when the payload is built. *)
Definition description_of (task : GTask) : jsstring :=
  let description := default [] (task_notes task) in
  match emailLink task with
  | Some emailLink =>
      let emailUrl := link_url emailLink in
      (if truthy description then description ++ separator else description)
        ++ annotation emailUrl
  | None => description
  end.

Definition todoistPayload (title : jsstring) (task : GTask) : TodoistPayload :=
  {| content := title;
     description := trim (description_of task);
     due_date :=
       match task_due task with
       | Some due => if truthy due then Some (substring due 0 10) else None
       | None => None
       end |}.

(** What the callback of [tasks.items.forEach] makes of one task: nothing
    for a task without title, the payload otherwise. *)
Definition transform (task : GTask) : option TodoistPayload :=
  match task_title task with
  | Some title => if truthy title then Some (todoistPayload title task) else None
  | None => None
  end.

(** The callback of [tasks.items.forEach]. *)
Definition processTask (env : Env) (TODOIST_API_TOKEN taskListId : jsstring)
    (task : GTask) : M unit :=
  match transform task with
  | None => ret tt
  | Some todoistPayload =>
      let title := content todoistPayload in
      log ConsoleLog (MsgProcessing title) ;;
      match emailLink task with
      | Some l => log ConsoleLog (MsgFoundLinkedEmail (link_url l))
      | None => ret tt
      end ;;
      let* todoistResponse :=
        createTodoistTask_ env todoistPayload TODOIST_API_TOKEN in
      match todoistResponse with
      | Some response =>
          log ConsoleLog (MsgCreatedInTodoist title (getContentText response)) ;;
          try_catch
            (Tasks_remove env taskListId (task_id task) ;;
             log ConsoleLog (MsgDeletedFromGoogle title))
            (fun e => log ConsoleError (MsgFailedToDelete (task_id task) e))
      | None => log ConsoleError (MsgFailedToCreate title)
      end
  end.

Definition syncGoogleTasksToTodoist (env : Env) : M unit :=
  match getProperty env (lit "TODOIST_API_TOKEN"),
        getProperty env (lit "GOOGLE_TASK_LIST_NAME") with
  | Some TODOIST_API_TOKEN, Some GOOGLE_TASK_LIST_NAME =>
      if truthy TODOIST_API_TOKEN && truthy GOOGLE_TASK_LIST_NAME then
        try_catch
          (let* taskListId := getTaskListIdByName_ env GOOGLE_TASK_LIST_NAME in
           match taskListId with
           | Some taskListId =>
               if truthy taskListId then
                 log ConsoleLog (MsgFoundList GOOGLE_TASK_LIST_NAME taskListId) ;;
                 let* items := Tasks_list env taskListId in
                 match items with
                 | None | Some [] => log ConsoleLog MsgNoTasksToSync
                 | Some items =>
                     log ConsoleLog (MsgFoundToSync (length items)) ;;
                     forEach (processTask env TODOIST_API_TOKEN taskListId)
                             items
                 end
               else log ConsoleError (MsgListNotFound GOOGLE_TASK_LIST_NAME)
           | None => log ConsoleError (MsgListNotFound GOOGLE_TASK_LIST_NAME)
           end)
          (fun err => log ConsoleError (MsgSyncError err))
      else log ConsoleError MsgConfigIncomplete
  | _, _ => log ConsoleError MsgConfigIncomplete
  end.

End Sync.

(** ** Objects used as dictionaries

    [{}] creates an ordinary object: its own properties are a finite map,
    and a property it does not own is looked up on [Object.prototype]. *)

Module Obj.

(** The properties of [Object.prototype]. *)
Definition prototype_members : list jsstring :=
  map lit
    ["constructor"; "__defineGetter__"; "__defineSetter__"; "hasOwnProperty";
     "__lookupGetter__"; "__lookupSetter__"; "isPrototypeOf";
     "propertyIsEnumerable"; "toString"; "valueOf"; "__proto__";
     "toLocaleString"]%string.

(** The result of [o[k]]: an own property, a member of the prototype (a
    function, or for [__proto__] the prototype itself: all of them truthy
    and none of them an array or a string), or [undefined]. *)
Inductive Lookup (V : Type) : Type :=
| Own (v : V)
| Inherited (member : jsstring)
| Undefined.
Arguments Own {V} v.
Arguments Inherited {V} member.
Arguments Undefined {V}.

Definition get {V} (o : gmap jsstring V) (k : jsstring) : Lookup V :=
  match o !! k with
  | Some v => Own v
  | None => if bool_decide (k ∈ prototype_members) then Inherited k else Undefined
  end.

(** [o[k] = v] for a string [v]: an own property is created or updated;
    the setter of [__proto__] ignores a value that is not an object. *)
Definition set {V} (o : gmap jsstring V) (k : jsstring) (v : V)
    : gmap jsstring V :=
  if bool_decide (k = lit "__proto__") then o else <[k := v]> o.

(** ToString of a member of the prototype, as happens when it is used as a
    property key. *)
Definition member_toString (member : jsstring) : jsstring :=
  if bool_decide (member = lit "__proto__") then lit "[object Object]"
  else
    lit "function "
      ++ (if bool_decide (member = lit "constructor") then lit "Object"
          else member)
      ++ lit "() { [native code] }".

(** [Object.keys(o)], in no particular order. *)
Definition keys {V} (o : gmap jsstring V) : list jsstring :=
  (map_to_list o).*1.

End Obj.

(** ** The report script: Todoist to PDF *)

Module Report.

Definition lift {A} (c : Completion A) : M A := fun s => (c, s).

(** [new Date()] *)
Definition new_Date (env : Env) : M Date :=
  fun s => (Normal (clock env (trace s)), s).

(** [(d.getMonth() + 1) + '-' + d.getDate() + '-' + d.getFullYear()] *)
Definition formattedDate (d : Date) : jsstring :=
  Number_toString (getMonth d + 1) ++ lit "-"
    ++ Number_toString (getDate d) ++ lit "-"
    ++ Number_toString (getFullYear d).

(** The name given to the spreadsheet. *)
Definition sheetName (d : Date) : jsstring :=
  lit "Todoist Report - " ++ formattedDate d.

Definition yesterday (today : Date) : Date :=
  setDate today (getDate today - 1).

(** The name [deleteYesterdaysReport] looks for. *)
Definition fileName (today : Date) : jsstring :=
  lit "Todoist Report - " ++ formattedDate (yesterday today) ++ lit ".pdf".

Definition deleteYesterdaysReport (env : Env) (folderId : jsstring) : M unit :=
  let* today := new_Date env in
  let fileName := fileName today in
  try_catch
    (let* folder :=
       call (fun tr => drive_getFolderById env tr folderId)
            (GetFolderById folderId) in
     let* files :=
       call (fun tr => drive_getFilesByName env tr folder fileName)
            (GetFilesByName folder fileName) in
     match files with
     | file :: _ =>
         call (fun tr => drive_setTrashed env tr (file_id file))
              (SetTrashed (file_id file)) ;;
         log LoggerLog (MsgCleanedUp fileName)
     | [] => log LoggerLog MsgNoReportFromYesterday
     end)
    (fun e => log LoggerLog (MsgCouldNotCleanUp e)).

(** [projectMap] after [projects.forEach]. *)
Definition projectMap_of (projects : list Project) : gmap jsstring jsstring :=
  foldl (fun projectMap project =>
           Obj.set projectMap (project_id_of project) (project_name project))
        ∅ projects.

(** [projectMap[task.project_id] || 'Inbox'], as the property key it is
    used for. *)
Definition projectName_of (projectMap : gmap jsstring jsstring)
    (task : TodoistTask) : jsstring :=
  match Obj.get projectMap (todoist_project_id task) with
  | Obj.Own name => if truthy name then name else lit "Inbox"
  | Obj.Inherited member => Obj.member_toString member
  | Obj.Undefined => lit "Inbox"
  end.

(** [{content: task.content, due: task.due ? task.due.string : 'No due date'}] *)
Definition row_of (task : TodoistTask) : TaskRow :=
  {| row_content := todoist_content task;
     row_due :=
       match todoist_due task with
       | Some due => due_string due
       | None => lit "No due date"
       end |}.

(** Calling [push] on a value that has none. *)
Definition push_is_not_a_function : Exn :=
  Error (lit "TypeError")
        (lit "tasksByProject[projectName].push is not a function").

(** The callback of [tasks.forEach] in [getUncompletedTasksByProject]. *)
Definition groupTask (projectMap : gmap jsstring jsstring)
    (tasksByProject : gmap jsstring (list TaskRow)) (task : TodoistTask)
    : Completion (gmap jsstring (list TaskRow)) :=
  let projectName := projectName_of projectMap task in
  match Obj.get tasksByProject projectName with
  | Obj.Undefined => Normal (<[projectName := [row_of task]]> tasksByProject)
  | Obj.Own rows =>
      Normal (<[projectName := rows ++ [row_of task]]> tasksByProject)
  | Obj.Inherited _ => Throw push_is_not_a_function
  end.

Fixpoint groupTasks (projectMap : gmap jsstring jsstring)
    (tasks : list TodoistTask) (tasksByProject : gmap jsstring (list TaskRow))
    : Completion (gmap jsstring (list TaskRow)) :=
  match tasks with
  | [] => Normal tasksByProject
  | task :: tasks' =>
      match groupTask projectMap tasksByProject task with
      | Normal tasksByProject' => groupTasks projectMap tasks' tasksByProject'
      | Throw e => Throw e
      end
  end.

(** The grouping of [getUncompletedTasksByProject], from the two parsed
    responses. *)
Definition group (projects : list Project) (tasks : list TodoistTask)
    : Completion (gmap jsstring (list TaskRow)) :=
  groupTasks (projectMap_of projects) tasks ∅.

Definition getUncompletedTasksByProject (env : Env) (apiToken : jsstring)
    : M (gmap jsstring (list TaskRow)) :=
  log LoggerLog MsgFetchingProjects ;;
  let* projects :=
    call (fun tr => fetch_projects env tr apiToken) (FetchProjects apiToken) in
  log LoggerLog MsgFetchingTasks ;;
  let* tasks :=
    call (fun tr => fetch_tasks env tr apiToken) (FetchTasks apiToken) in
  log LoggerLog (MsgFoundUncompleted (length tasks)) ;;
  lift (group projects tasks).

(** The spreadsheet is created under [sheetName], which the service answers
    with the new document's id, and filled; the layout of the rows is left
    to the spreadsheet service. *)
Definition createAndPopulateSheet (env : Env)
    (tasksByProject : gmap jsstring (list TaskRow)) : M Spreadsheet :=
  let* date := new_Date env in
  let sheetName := sheetName date in
  log LoggerLog (MsgCreatingSpreadsheet sheetName) ;;
  let* spreadsheetId :=
    call (fun tr => spreadsheet_create env tr sheetName)
         (SpreadsheetCreate sheetName) in
  let spreadsheet := {| getId := spreadsheetId; getName := sheetName |} in
  call (fun tr => sheet_populate env tr (getId spreadsheet) tasksByProject)
       (SheetPopulate (getId spreadsheet) tasksByProject) ;;
  log LoggerLog MsgPopulated ;;
  ret spreadsheet.

Definition exportSheetAsPdf (env : Env) (spreadsheet : Spreadsheet)
    (folderId : jsstring) : M unit :=
  try_catch
    (log LoggerLog MsgExporting ;;
     let* folder :=
       call (fun tr => drive_getFolderById env tr folderId)
            (GetFolderById folderId) in
     call (fun tr => spreadsheet_getBlob env tr (getId spreadsheet))
          (GetBlob (getId spreadsheet)) ;;
     let pdfName := getName spreadsheet ++ lit ".pdf" in
     let* pdfFile :=
       call (fun tr => drive_createFile env tr folder pdfName)
            (CreateFile folder pdfName) in
     log LoggerLog (MsgPdfCreated (file_name pdfFile) (folder_name folder)))
    (fun e =>
       (if includes (lit "Folder not found") (message e)
        then log LoggerLog (MsgFolderNotFound folderId)
        else ret tt) ;;
       throw e).

Definition createTodoistReport (env : Env) : M unit :=
  match getProperty env (lit "TODOIST_API_TOKEN"),
        getProperty env (lit "GOOGLE_DRIVE_FOLDER_ID") with
  | Some TODOIST_API_TOKEN, Some GOOGLE_DRIVE_FOLDER_ID =>
      if truthy TODOIST_API_TOKEN && truthy GOOGLE_DRIVE_FOLDER_ID then
        try_catch
          (log LoggerLog MsgStarting ;;
           deleteYesterdaysReport env GOOGLE_DRIVE_FOLDER_ID ;;
           let* tasksByProject :=
             getUncompletedTasksByProject env TODOIST_API_TOKEN in
           if (length (Obj.keys tasksByProject) =? 0)%nat then
             log LoggerLog MsgNoTasksAborting
           else
             let* spreadsheet := createAndPopulateSheet env tasksByProject in
             exportSheetAsPdf env spreadsheet GOOGLE_DRIVE_FOLDER_ID ;;
             call (fun tr => drive_setTrashed env tr (getId spreadsheet))
                  (SetTrashed (getId spreadsheet)) ;;
             log LoggerLog MsgReportCreated)
          (fun error =>
             log LoggerLog (MsgErrorOccurred error) ;;
             log LoggerLog (MsgStack error))
      else log LoggerLog MsgSetProperties
  | _, _ => log LoggerLog MsgSetProperties
  end.

End Report.

(** ** The rows of the sheet

    [createAndPopulateSheet] walks the grouping with [for (... in ...)],
    which visits the properties in an order that depends on when they were
    created; so this part keeps the own properties of [tasksByProject] as a
    list of keys with their values, oldest first. What it describes of the
    sheet are the rows handed to [appendRow]; fonts, merged cells and column
    widths are left out. *)

Module Sheet.

(** The own property [k] of [o], if there is one. *)
Definition own {V} (o : list (jsstring * V)) (k : jsstring) : option V :=
  snd <$> find (fun kv => bool_decide (kv.1 = k)) o.

(** [o[k]] *)
Definition get {V} (o : list (jsstring * V)) (k : jsstring) : Obj.Lookup V :=
  match own o k with
  | Some v => Obj.Own v
  | None =>
      if bool_decide (k ∈ Obj.prototype_members) then Obj.Inherited k
      else Obj.Undefined
  end.

(** [o[k].push(x)] for an own property that holds an array: the array grows
    in place. *)
Definition push {A} (o : list (jsstring * list A)) (k : jsstring) (x : A)
    : list (jsstring * list A) :=
  (fun kv => if bool_decide (kv.1 = k) then (kv.1, kv.2 ++ [x]) else kv) <$> o.

(** The callback of [tasks.forEach] in [getUncompletedTasksByProject]: a
    name seen for the first time becomes the youngest property. *)
Definition groupTask (projectMap : gmap jsstring jsstring)
    (tasksByProject : list (jsstring * list TaskRow)) (task : TodoistTask)
    : Completion (list (jsstring * list TaskRow)) :=
  let projectName := Report.projectName_of projectMap task in
  match get tasksByProject projectName with
  | Obj.Undefined =>
      Normal (push (tasksByProject ++ [(projectName, [])]) projectName
                   (Report.row_of task))
  | Obj.Own _ => Normal (push tasksByProject projectName (Report.row_of task))
  | Obj.Inherited _ => Throw Report.push_is_not_a_function
  end.

Fixpoint groupTasks (projectMap : gmap jsstring jsstring)
    (tasks : list TodoistTask) (tasksByProject : list (jsstring * list TaskRow))
    : Completion (list (jsstring * list TaskRow)) :=
  match tasks with
  | [] => Normal tasksByProject
  | task :: tasks' =>
      match groupTask projectMap tasksByProject task with
      | Normal tasksByProject' => groupTasks projectMap tasks' tasksByProject'
      | Throw e => Throw e
      end
  end.

Definition group (projects : list Project) (tasks : list TodoistTask)
    : Completion (list (jsstring * list TaskRow)) :=
  groupTasks (Report.projectMap_of projects) tasks [].

(** *** The order of [for (... in ...)] *)

Definition digit (c : N) : option N :=
  if ((48 <=? c) && (c <=? 57))%N then Some (c - 48)%N else None.

Fixpoint decimal (acc : N) (s : jsstring) : option N :=
  match s with
  | [] => Some acc
  | c :: s' =>
      match digit c with
      | Some d => decimal (10 * acc + d) s'
      | None => None
      end
  end.

(** The array index a property key denotes: the key is the shortest decimal
    notation of an integer from 0 to 2^32 - 2. *)
Definition array_index (k : jsstring) : option N :=
  match k with
  | [] => None
  | c :: k' =>
      if (c =? 48)%N && negb (bool_decide (k' = [])) then None
      else
        match decimal 0 k with
        | Some n => if (n <? 2 ^ 32 - 1)%N then Some n else None
        | None => None
        end
  end.

Fixpoint insert_by_index {A} (e : N * A) (l : list (N * A)) : list (N * A) :=
  match l with
  | [] => [e]
  | e' :: l' =>
      if (e.1 <=? e'.1)%N then e :: l else e' :: insert_by_index e l'
  end.

Definition sort_by_index {A} (l : list (N * A)) : list (N * A) :=
  foldr insert_by_index [] l.

(** The properties as [for (... in ...)] visits them: first those whose key
    is an array index, by ascending index, then the others, oldest first.
    [Object.prototype] adds nothing, it has no enumerable property. *)
Definition forin {V} (o : list (jsstring * V)) : list (jsstring * V) :=
  (sort_by_index
     (omap (fun kv => (fun n => (n, kv)) <$> array_index kv.1) o)).*2
  ++ filter (fun kv => array_index kv.1 = None) o.

(** *** The loop of [createAndPopulateSheet] *)

Definition hasOwnProperty_is_not_a_function : Exn :=
  Error (lit "TypeError")
        (lit "tasksByProject.hasOwnProperty is not a function").

(** [o.hasOwnProperty(k)]: the method is the inherited one unless the object
    has an own property of that name, and what this script stores is no
    function. *)
Definition hasOwnProperty {V} (o : list (jsstring * V)) (k : jsstring)
    : Completion bool :=
  match own o (lit "hasOwnProperty") with
  | Some _ => Throw hasOwnProperty_is_not_a_function
  | None => Normal (bool_decide (is_Some (own o k)))
  end.

(** The spacer row: one cell that holds the empty string. *)
Definition spacer : list jsstring := [[]].

(** The rows appended for one project: its name, the column headers, its
    tasks, and a spacer. [tasks] is [tasksByProject[projectName]], the value
    of the property the loop is at. *)
Definition section (projectName : jsstring) (tasks : list TaskRow)
    : list (list jsstring) :=
  [projectName] :: [lit "Task"; lit "Due Date"]
    :: ((fun task => [row_content task; row_due task]) <$> tasks) ++ [spacer].

(** The body of the loop, over the properties still to visit; [rows] are
    the arguments of the calls of [appendRow] so far. *)
Fixpoint sections (tasksByProject : list (jsstring * list TaskRow))
    (visit : list (jsstring * list TaskRow)) (rows : list (list jsstring))
    : Completion (list (list jsstring)) :=
  match visit with
  | [] => Normal rows
  | (projectName, tasks) :: visit' =>
      match hasOwnProperty tasksByProject projectName with
      | Normal true =>
          sections tasksByProject visit' (rows ++ section projectName tasks)
      | Normal false => sections tasksByProject visit' rows
      | Throw e => Throw e
      end
  end.

(** The arguments of the calls of [appendRow], in the order of the calls,
    when each of them returns: the title, a spacer, and the sections. *)
Definition appendedRows (sheetName : jsstring)
    (tasksByProject : list (jsstring * list TaskRow))
    : Completion (list (list jsstring)) :=
  sections tasksByProject (forin tasksByProject) [[sheetName]; spacer].

End Sheet.

(** * The vocabulary of the properties *)

(** The string has a character that [trim] keeps. *)
Definition has_ink (s : jsstring) : Prop :=
  Exists (fun c => is_whitespace c = false) s.

(** The string is not empty and its last character is not white space. *)
Definition ends_in_ink (s : jsstring) : Prop :=
  exists c, last s = Some c /\ is_whitespace c = false.

(** The string is empty or its first character is not white space. *)
Definition no_leading_space (s : jsstring) : Prop :=
  forall c, head s = Some c -> is_whitespace c = false.

Definition no_trailing_space (s : jsstring) : Prop :=
  forall c, last s = Some c -> is_whitespace c = false.

Definition is_email (l : Link) : Prop := link_type l = lit "email".

(** A task of the sync script counts as lacking a title when the field is
    absent or the empty string. *)
Definition lacks_title (task : GTask) : Prop :=
  task_title task = None \/ task_title task = Some [].

(** A run starts with an empty trace. *)
Definition start (source : list GTask) : State :=
  {| gtasks := source; trace := [] |}.

(** The events a statement adds to the trace it finds. *)
Definition events_of {A} (m : M A) (s : State) : list Event :=
  drop (length (trace s)) (trace (m s).2).

(** Calls that change what a service stores. *)
Definition mutates (ev : Event) : Prop :=
  match ev with
  | FetchPost _ _ _ | TasksRemove _ _ _ | SetTrashed _ _ | CreateFile _ _ _
  | SpreadsheetCreate _ _ | SheetPopulate _ _ _ => True
  | _ => False
  end.

(** Calls that bring a spreadsheet or a file into being. *)
Definition creates_document (ev : Event) : Prop :=
  match ev with
  | SpreadsheetCreate _ _ | CreateFile _ _ _ => True
  | _ => False
  end.

(** The events hold a creation call for [p] that Todoist answered with
    status 200. *)
Definition created_by (tok : jsstring) (p : TodoistPayload)
    (evs : list Event) : Prop :=
  exists r, FetchPost p tok (Normal r) ∈ evs /\ getResponseCode r = 200%Z.

(** What one run of the callback on [task] does: [evs] are the events it adds
    and [gt'] is the source list it leaves, having found [gt]. *)
Record step_facts (tok lid : jsstring) (task : GTask)
    (gt gt' : list GTask) (evs : list Event) : Prop := {
  posts_only_transform :
    forall p tok' out, FetchPost p tok' out ∈ evs ->
      Sync.transform task = Some p /\ tok' = tok;
  posts_transform :
    forall p, Sync.transform task = Some p ->
      exists out, FetchPost p tok out ∈ evs;
  removal_needs_created :
    forall l t out, TasksRemove l t out ∈ evs ->
      l = lid /\ t = task_id task
      /\ exists p, Sync.transform task = Some p /\ created_by tok p evs;
  created_gets_removal :
    forall p, created_by tok p evs ->
      exists out, TasksRemove lid (task_id task) out ∈ evs;
  store_after :
    gt' = gt
    \/ gt' = filter (fun t => task_id t <> task_id task) gt
       /\ TasksRemove lid (task_id task) (Normal tt) ∈ evs;
  removal_failure_logged :
    forall l t e, TasksRemove l t (Throw e) ∈ evs ->
      Log ConsoleError (MsgFailedToDelete t e) ∈ evs /\ gt' = gt;
  creation_failure_logged :
    forall p, Sync.transform task = Some p -> ~ created_by tok p evs ->
      Log ConsoleError (MsgFailedToCreate (content p)) ∈ evs /\ gt' = gt
}.

(** The environment lets a run reach the batch: both properties are set, the
    listing of task lists succeeds and its first list with the configured
    name has the id [lid], and the listing of that list's tasks succeeds. *)
Definition ready (env : Env) (tok lid : jsstring) : Prop :=
  exists name,
    getProperty env (lit "TODOIST_API_TOKEN") = Some tok
    /\ truthy tok = true
    /\ getProperty env (lit "GOOGLE_TASK_LIST_NAME") = Some name
    /\ truthy name = true
    /\ truthy lid = true
    /\ (forall tr, exists items l,
          tasklists_list env tr = Normal (Some items)
          /\ find (fun l => bool_decide (list_title l = name)) items = Some l
          /\ list_id l = lid)
    /\ (forall tr, tasks_list_error env tr lid = None).

(** The name is not a property of [Object.prototype]. *)
Definition plain_key (k : jsstring) : Prop := k ∉ Obj.prototype_members.

(** The rows of the tasks filed under [k], in the order of the tasks. *)
Definition rows_for (projectMap : gmap jsstring jsstring) (k : jsstring)
    (tasks : list TodoistTask) : list TaskRow :=
  Report.row_of <$>
    filter (fun task => Report.projectName_of projectMap task = k) tasks.

(** Both properties of the report script are set. *)
Definition report_configured (env : Env) (tok folderId : jsstring) : Prop :=
  getProperty env (lit "TODOIST_API_TOKEN") = Some tok
  /\ truthy tok = true
  /\ getProperty env (lit "GOOGLE_DRIVE_FOLDER_ID") = Some folderId
  /\ truthy folderId = true.

(** The calls the cleanup makes. *)
Definition cleanup_event (ev : Event) : Prop :=
  match ev with
  | GetFolderById _ _ | GetFilesByName _ _ _ | SetTrashed _ _ | Log _ _ => True
  | _ => False
  end.

(** A Drive call of the cleanup that threw [e]. *)
Definition cleanup_failure (e : Exn) (ev : Event) : Prop :=
  match ev with
  | GetFolderById _ (Throw e') | GetFilesByName _ _ (Throw e')
  | SetTrashed _ (Throw e') => e' = e
  | _ => False
  end.

(** Both properties of the sync script are set. *)
Definition sync_configured (env : Env) (tok name : jsstring) : Prop :=
  getProperty env (lit "TODOIST_API_TOKEN") = Some tok
  /\ truthy tok = true
  /\ getProperty env (lit "GOOGLE_TASK_LIST_NAME") = Some name
  /\ truthy name = true.

(** ** Vocabulary of the further properties *)

(** The payloads posted to Todoist, in the order of the calls. *)
Definition posted (evs : list Event) : list TodoistPayload :=
  omap (fun ev => match ev with FetchPost p _ _ => Some p | _ => None end) evs.

(** The listing of the task lists shows [l] as the first list titled
    [name]. *)
Definition first_titled (name : jsstring) (items : list TaskList)
    (l : TaskList) : Prop :=
  exists before after,
    items = before ++ l :: after
    /\ list_title l = name
    /\ Forall (fun l' => list_title l' <> name) before.

(** The exception a service call ended with, if it threw. *)
Definition raised (ev : Event) : option Exn :=
  match ev with
  | TasklistsList (Throw e) | TasksList _ (Throw e) | TasksRemove _ _ (Throw e)
  | FetchPost _ _ (Throw e) | FetchProjects _ (Throw e)
  | FetchTasks _ (Throw e) | GetFolderById _ (Throw e)
  | GetFilesByName _ _ (Throw e) | SetTrashed _ (Throw e)
  | CreateFile _ _ (Throw e) | SpreadsheetCreate _ (Throw e)
  | SheetPopulate _ _ (Throw e) | GetBlob _ (Throw e) => Some e
  | _ => None
  end.

(** The service calls among the events, without the log lines. *)
Definition calls (evs : list Event) : list Event :=
  omap (fun ev => match ev with Log _ _ => None | _ => Some ev end) evs.

(** The ids of the files handed to [setTrashed], in the order of the calls. *)
Definition trashed (evs : list Event) : list jsstring :=
  omap (fun ev => match ev with SetTrashed fid _ => Some fid | _ => None end) evs.

(** A line the cleanup of yesterday's report may write. *)
Definition cleanup_line (m : Msg) : Prop :=
  match m with
  | MsgCleanedUp _ | MsgNoReportFromYesterday | MsgCouldNotCleanUp _ => True
  | _ => False
  end.

(** The lines a run of the report script can end with. *)
Definition closing_line (m : Msg) : Prop :=
  match m with
  | MsgNoTasksAborting | MsgReportCreated | MsgStack _ => True
  | _ => False
  end.

(** What a run of the report script configured with [tok] and [folderId]
    may do: log, fetch from Todoist with the token, ask Drive for the
    configured folder, and call Drive and the spreadsheet service; the Tasks
    service and Todoist's creation endpoint are not among it. *)
Definition report_call (tok folderId : jsstring) (ev : Event) : Prop :=
  match ev with
  | FetchProjects t _ | FetchTasks t _ => t = tok
  | GetFolderById f _ => f = folderId
  | TasklistsList _ | TasksList _ _ | TasksRemove _ _ _ | FetchPost _ _ _ =>
      False
  | _ => True
  end.

(** What the events of a configured run of the report script satisfy, after
    the cleanup of yesterday's report. *)
Record report_body_facts (tok folderId : jsstring) (body : list Event)
    : Prop := {
  configured_values : forall ev, ev ∈ body -> report_call tok folderId ev;
  tasks_after_projects : forall t out, FetchTasks t out ∈ body ->
    exists projects, FetchProjects tok (Normal projects) ∈ body;
  documents_after_tasks : forall ev, ev ∈ body -> creates_document ev ->
    exists projects tasks m,
      FetchProjects tok (Normal projects) ∈ body
      /\ FetchTasks tok (Normal tasks) ∈ body
      /\ tasks <> []
      /\ Report.group projects tasks = Normal m;
  populate_is_grouping : forall id m out, SheetPopulate id m out ∈ body ->
    exists projects tasks name,
      FetchProjects tok (Normal projects) ∈ body
      /\ FetchTasks tok (Normal tasks) ∈ body
      /\ Report.group projects tasks = Normal m
      /\ tasks <> []
      /\ SpreadsheetCreate name (Normal id) ∈ body;
  export_of_populated : forall fld name out, CreateFile fld name out ∈ body ->
    exists id m,
      SheetPopulate id m (Normal tt) ∈ body
      /\ GetBlob id (Normal tt) ∈ body
      /\ GetFolderById folderId (Normal fld) ∈ body;
  trash_after_export : forall fid out, SetTrashed fid out ∈ body ->
    exists name fld f,
      SpreadsheetCreate name (Normal fid) ∈ body
      /\ CreateFile fld (name ++ lit ".pdf") (Normal f) ∈ body;
  export_then_trash : forall fld name f,
    CreateFile fld name (Normal f) ∈ body ->
    exists sheet fid out,
      name = sheet ++ lit ".pdf"
      /\ SpreadsheetCreate sheet (Normal fid) ∈ body
      /\ SetTrashed fid out ∈ body;
  success_logged : forall c, Log c MsgReportCreated ∈ body ->
    (exists fid, SetTrashed fid (Normal tt) ∈ body)
    /\ omap raised body = [];
  success_no_error : forall c c' e, Log c MsgReportCreated ∈ body ->
    Log c' (MsgErrorOccurred e) ∉ body;
  trashed_logged : forall fid, SetTrashed fid (Normal tt) ∈ body ->
    Log LoggerLog MsgReportCreated ∈ body;
  failure_last : forall ev e, ev ∈ body -> raised ev = Some e ->
    last (calls body) = Some ev
    /\ Log LoggerLog (MsgErrorOccurred e) ∈ body
    /\ last body = Some (Log LoggerLog (MsgStack e));
  error_logged : forall c e, Log c (MsgErrorOccurred e) ∈ body ->
    omap raised body = [e]
    \/ (omap raised body = []
        /\ e = Report.push_is_not_a_function
        /\ exists projects tasks,
             FetchProjects tok (Normal projects) ∈ body
             /\ FetchTasks tok (Normal tasks) ∈ body
             /\ Report.group projects tasks = Throw e);
  ending : exists m, last body = Some (Log LoggerLog m) /\ closing_line m;
  hint_logged : forall c f, Log c (MsgFolderNotFound f) ∈ body ->
    f = folderId
    /\ exists e, omap raised body = [e]
         /\ includes (lit "Folder not found") (message e) = true
}.



(** The names in the order of their first occurrence. *)
Definition first_seen (names : list jsstring) : list jsstring :=
  reverse (remove_dups (reverse names)).

(** The properties are distinct and none bears the name of a member of the
    prototype. *)
Definition well_formed (o : list (jsstring * list TaskRow)) : Prop :=
  NoDup o.*1 /\ Forall plain_key o.*1.

(** * Scenarios

    Concrete tasks, projects and environments on which the properties are
    exercised. *)

(** The scenario of the specification: a task with notes, a due time and a
    linked email. *)
Definition call_bob : GTask :=
  {| task_id := lit "t1";
     task_title := Some (lit "Call Bob");
     task_notes := Some (lit "re: contract");
     task_due := Some (lit "2024-05-01T00:00:00Z");
     task_links :=
       Some [ {| link_type := lit "email";
                 link_url := lit "https://mail.example/x" |} ] |}.

(** A task whose title is the empty string. *)
Definition titled_blank : GTask :=
  {| task_id := lit "t3";
     task_title := Some [];
     task_notes := Some (lit "notes");
     task_due := None;
     task_links := None |}.

(** A task whose notes are a single blank. *)
Definition blank_notes : GTask :=
  {| task_id := lit "t2";
     task_title := Some (lit "T");
     task_notes := Some (lit " ");
     task_due := None;
     task_links :=
       Some [ {| link_type := lit "email"; link_url := lit "u" |} ] |}.

(** An environment in which Todoist refuses the task titled ["b"] with
    status 500 and accepts every other one, and everything else succeeds. *)
Definition todoist_refuses_b : Env :=
  {| getProperty := fun k =>
       if bool_decide (k = lit "TODOIST_API_TOKEN") then Some (lit "token")
       else if bool_decide (k = lit "GOOGLE_TASK_LIST_NAME")
            then Some (lit "My Tasks")
       else if bool_decide (k = lit "GOOGLE_DRIVE_FOLDER_ID")
            then Some (lit "folder")
       else None;
     clock := fun _ => mkDate 2024 2 1;
     tasklists_list := fun _ =>
       Normal (Some [ {| list_id := lit "L1"; list_title := lit "My Tasks" |} ]);
     tasks_list_error := fun _ _ => None;
     tasks_remove_error := fun _ _ _ => None;
     fetch_post := fun _ p _ =>
       if bool_decide (content p = lit "b")
       then Normal {| getResponseCode := 500; getContentText := lit "error" |}
       else Normal {| getResponseCode := 200; getContentText := lit "ok" |};
     fetch_projects := fun _ _ => Normal [];
     fetch_tasks := fun _ _ => Normal [];
     drive_getFolderById := fun _ i =>
       Normal {| folder_id := i; folder_name := lit "Reports" |};
     drive_getFilesByName := fun _ _ _ => Normal [];
     drive_setTrashed := fun _ _ => Normal tt;
     drive_createFile := fun _ _ n =>
       Normal {| file_id := lit "pdf"; file_name := n |};
     spreadsheet_create := fun _ _ => Normal (lit "sheet");
     sheet_populate := fun _ _ _ => Normal tt;
     spreadsheet_getBlob := fun _ _ => Normal tt |}.

Definition titled (id title : string) : GTask :=
  {| task_id := lit id; task_title := Some (lit title); task_notes := None;
     task_due := None; task_links := None |}.

Definition three_tasks : list GTask :=
  [titled "1" "a"; titled "2" "b"; titled "3" "c"].

(** The scenario of the specification: one task in a known project, one
    (without content) in an unknown one. *)
Definition errands : list Project :=
  [ {| project_id_of := lit "p1"; project_name := lit "Errands" |} ].

Definition buy_milk : TodoistTask :=
  {| todoist_content := lit "Buy milk"; todoist_project_id := lit "p1";
     todoist_due := None |}.

Definition no_content : TodoistTask :=
  {| todoist_content := []; todoist_project_id := lit "p2";
     todoist_due := None |}.

(** A project that bears the name of a property of [Object.prototype], and a
    task in it. *)
Definition constructor_project : list Project :=
  [ {| project_id_of := lit "1"; project_name := lit "constructor" |} ].

Definition task_in_constructor : TodoistTask :=
  {| todoist_content := lit "x"; todoist_project_id := lit "1";
     todoist_due := None |}.

Definition permission_denied : Exn :=
  Error (lit "Exception") (lit "Permission denied").

(** An environment in which Todoist accepts everything, yesterday's report
    exists, and every deletion is refused. *)
Definition deletions_refused : Env :=
  {| getProperty := getProperty todoist_refuses_b;
     clock := clock todoist_refuses_b;
     tasklists_list := tasklists_list todoist_refuses_b;
     tasks_list_error := tasks_list_error todoist_refuses_b;
     tasks_remove_error := fun _ _ _ => Some permission_denied;
     fetch_post := fun _ _ _ =>
       Normal {| getResponseCode := 200; getContentText := lit "ok" |};
     fetch_projects := fetch_projects todoist_refuses_b;
     fetch_tasks := fetch_tasks todoist_refuses_b;
     drive_getFolderById := drive_getFolderById todoist_refuses_b;
     drive_getFilesByName := fun _ _ name =>
       Normal [ {| file_id := lit "old"; file_name := name |} ];
     drive_setTrashed := fun _ _ => Throw permission_denied;
     drive_createFile := drive_createFile todoist_refuses_b;
     spreadsheet_create := spreadsheet_create todoist_refuses_b;
     sheet_populate := sheet_populate todoist_refuses_b;
     spreadsheet_getBlob := spreadsheet_getBlob todoist_refuses_b |}.

(** An environment in which Todoist has the project named ["constructor"] and
    the task in it. *)
Definition constructor_named : Env :=
  {| getProperty := getProperty todoist_refuses_b;
     clock := clock todoist_refuses_b;
     tasklists_list := tasklists_list todoist_refuses_b;
     tasks_list_error := tasks_list_error todoist_refuses_b;
     tasks_remove_error := tasks_remove_error todoist_refuses_b;
     fetch_post := fetch_post todoist_refuses_b;
     fetch_projects := fun _ _ => Normal constructor_project;
     fetch_tasks := fun _ _ => Normal [task_in_constructor];
     drive_getFolderById := drive_getFolderById todoist_refuses_b;
     drive_getFilesByName := drive_getFilesByName todoist_refuses_b;
     drive_setTrashed := drive_setTrashed todoist_refuses_b;
     drive_createFile := drive_createFile todoist_refuses_b;
     spreadsheet_create := spreadsheet_create todoist_refuses_b;
     sheet_populate := sheet_populate todoist_refuses_b;
     spreadsheet_getBlob := spreadsheet_getBlob todoist_refuses_b |}.

(** The first of March of a leap year. *)
Definition march_first : Date := mkDate 2024 2 1.



(** An environment in which the listing of the tasks of the list throws. *)
Definition tasks_listing_fails : Env :=
  {| getProperty := getProperty todoist_refuses_b;
     clock := clock todoist_refuses_b;
     tasklists_list := tasklists_list todoist_refuses_b;
     tasks_list_error := fun _ _ => Some permission_denied;
     tasks_remove_error := tasks_remove_error todoist_refuses_b;
     fetch_post := fetch_post todoist_refuses_b;
     fetch_projects := fetch_projects todoist_refuses_b;
     fetch_tasks := fetch_tasks todoist_refuses_b;
     drive_getFolderById := drive_getFolderById todoist_refuses_b;
     drive_getFilesByName := drive_getFilesByName todoist_refuses_b;
     drive_setTrashed := drive_setTrashed todoist_refuses_b;
     drive_createFile := drive_createFile todoist_refuses_b;
     spreadsheet_create := spreadsheet_create todoist_refuses_b;
     sheet_populate := sheet_populate todoist_refuses_b;
     spreadsheet_getBlob := spreadsheet_getBlob todoist_refuses_b |}.

(** A task with a short due value and a blank-padded title. *)
Definition short_due : GTask :=
  {| task_id := lit "t4";
     task_title := Some (lit " pay rent ");
     task_notes := Some (lit "  before noon ");
     task_due := Some (lit "tomorrow");
     task_links := Some [ {| link_type := lit "related"; link_url := lit "v" |} ] |}.

(** An environment in which Todoist holds the two tasks of the scenario,
    two files bear yesterday's name, and every service succeeds. *)
Definition report_succeeds : Env :=
  {| getProperty := getProperty todoist_refuses_b;
     clock := clock todoist_refuses_b;
     tasklists_list := tasklists_list todoist_refuses_b;
     tasks_list_error := tasks_list_error todoist_refuses_b;
     tasks_remove_error := tasks_remove_error todoist_refuses_b;
     fetch_post := fetch_post todoist_refuses_b;
     fetch_projects := fun _ _ => Normal errands;
     fetch_tasks := fun _ _ => Normal [buy_milk; no_content];
     drive_getFolderById := drive_getFolderById todoist_refuses_b;
     drive_getFilesByName := fun _ _ name =>
       Normal [ {| file_id := lit "old1"; file_name := name |};
                {| file_id := lit "old2"; file_name := name |} ];
     drive_setTrashed := drive_setTrashed todoist_refuses_b;
     drive_createFile := drive_createFile todoist_refuses_b;
     spreadsheet_create := spreadsheet_create todoist_refuses_b;
     sheet_populate := sheet_populate todoist_refuses_b;
     spreadsheet_getBlob := spreadsheet_getBlob todoist_refuses_b |}.

Definition folder_not_found : Exn :=
  Error (lit "Exception") (lit "Folder not found: folder").

(** An environment in which Todoist holds the two tasks of the scenario and
    Drive does not know the configured folder. *)
Definition folder_missing : Env :=
  {| getProperty := getProperty todoist_refuses_b;
     clock := clock todoist_refuses_b;
     tasklists_list := tasklists_list todoist_refuses_b;
     tasks_list_error := tasks_list_error todoist_refuses_b;
     tasks_remove_error := tasks_remove_error todoist_refuses_b;
     fetch_post := fetch_post todoist_refuses_b;
     fetch_projects := fun _ _ => Normal errands;
     fetch_tasks := fun _ _ => Normal [buy_milk; no_content];
     drive_getFolderById := fun _ _ => Throw folder_not_found;
     drive_getFilesByName := drive_getFilesByName todoist_refuses_b;
     drive_setTrashed := drive_setTrashed todoist_refuses_b;
     drive_createFile := drive_createFile todoist_refuses_b;
     spreadsheet_create := spreadsheet_create todoist_refuses_b;
     sheet_populate := sheet_populate todoist_refuses_b;
     spreadsheet_getBlob := spreadsheet_getBlob todoist_refuses_b |}.


(** Tasks of three projects, two of which have a number for a name. *)
Definition numbered_projects : list Project :=
  [ {| project_id_of := lit "a"; project_name := lit "Work" |};
    {| project_id_of := lit "b"; project_name := lit "2024" |};
    {| project_id_of := lit "c"; project_name := lit "10" |} ].

Definition task_in (project content : string) : TodoistTask :=
  {| todoist_content := lit content; todoist_project_id := lit project;
     todoist_due := None |}.

(** * Properties *)

Ltac in_inv :=
  repeat match goal with
    | H : _ ∈ [] |- _ => by apply elem_of_nil in H
    | H : _ ∈ _ :: _ |- _ => apply elem_of_cons in H as [H|H]
    | H : created_by _ _ _ |- _ => destruct H as (? & H & ?)
    end;
  simplify_eq.

Ltac in_list :=
  solve [ repeat first [ apply list_elem_of_here | apply list_elem_of_further ] ].

Ltac split_paths :=
  repeat first
    [ progress cbn [gtasks trace fst snd]
    | match goal with
      | |- context [match ?x with Normal _ => _ | Throw _ => _ end] =>
          destruct x eqn:?
      | |- context [if ?b then _ else _] => destruct b eqn:?
      end ].

Example trim_example :
  trim (lit "  a b " ++ [LF]) = lit "a b".
Proof. reflexivity. Qed.

Example substring_example :
  substring (lit "2024-05-01T00:00:00Z") 0 10 = lit "2024-05-01".
Proof. reflexivity. Qed.

Example setDate_month_start :
  setDate (mkDate 2024 2 1) 0 = mkDate 2024 1 29.
Proof. reflexivity. Qed.

Example setDate_year_start :
  setDate (mkDate 2025 0 1) 0 = mkDate 2024 11 31.
Proof. reflexivity. Qed.

Example Number_toString_example :
  Number_toString 7 = lit "7" /\ Number_toString 2024 = lit "2024".
Proof. split; reflexivity. Qed.

(** ** Strings *)

Section trim_facts.

Implicit Types s a b : jsstring.

Lemma trimStart_no_leading_space s : no_leading_space (trimStart s).
Proof.
  induction s as [|c s IH]; simpl; [by intros ?|].
  destruct (is_whitespace c) eqn:E; [done|].
  intros d [= <-]. done.
Qed.

Lemma trimStart_app_ink a b : has_ink a -> trimStart (a ++ b) = trimStart a ++ b.
Proof.
  induction 1 as [c a Hc | c a _ IH]; simpl.
  - by rewrite Hc.
  - destruct (is_whitespace c); done.
Qed.

(** White space is only ever cut from the left operand when the right one
    starts with ink. *)
Lemma trimStart_app_r a b :
  b <> [] -> no_leading_space b ->
  exists a', a' `suffix_of` a /\ trimStart (a ++ b) = a' ++ b.
Proof.
  intros Hb Hlead. induction a as [|c a [a' [Hsuf IH]]]; simpl.
  - exists []. split; [done|]. destruct b as [|d b]; [done|].
    simpl. by rewrite (Hlead d eq_refl).
  - destruct (is_whitespace c).
    + exists a'. split; [by apply suffix_cons_r | done].
    + by exists (c :: a).
Qed.

Lemma trimEnd_ends_in_ink s : ends_in_ink s -> trimEnd s = s.
Proof.
  intros (c & Hlast & Hc).
  induction s as [|d s IH]; simpl; [done|].
  destruct s as [|d' s'].
  - simpl in *. injection Hlast as ->. by rewrite Hc.
  - rewrite IH; [done|]. by rewrite last_cons_cons in Hlast.
Qed.

Lemma trimEnd_no_trailing_space s : no_trailing_space (trimEnd s).
Proof.
  induction s as [|d s IH]; simpl; [by intros ?|].
  destruct (trimEnd s) as [|e t] eqn:E.
  - destruct (is_whitespace d) eqn:Hd; [by intros ?|].
    intros c [= <-]. done.
  - intros c. rewrite last_cons_cons. apply IH.
Qed.

Lemma trimEnd_prefix s : trimEnd s `prefix_of` s.
Proof.
  induction s as [|d s IH]; simpl; [done|].
  destruct (trimEnd s) as [|e t] eqn:E.
  - destruct (is_whitespace d); [apply prefix_nil|].
    by apply prefix_cons, prefix_nil.
  - by apply prefix_cons.
Qed.

(** [trim] leaves white space at neither end. *)
Lemma trim_no_leading_space s : no_leading_space (trim s).
Proof.
  unfold trim. intros c Hc.
  pose proof (trimStart_no_leading_space s) as Hs.
  destruct (trimEnd_prefix (trimStart s)) as [k Hk].
  destruct (trimEnd (trimStart s)) as [|d t]; [done|].
  simpl in Hc. injection Hc as ->. rewrite Hk in Hs. by apply Hs.
Qed.

Lemma trim_no_trailing_space s : no_trailing_space (trim s).
Proof. apply trimEnd_no_trailing_space. Qed.

Lemma ends_in_ink_app a b : ends_in_ink b -> ends_in_ink (a ++ b).
Proof.
  intros (c & Hlast & Hc). exists c. split; [|done].
  destruct b as [|d b] using rev_ind; [done|].
  rewrite app_assoc, last_snoc. rewrite last_snoc in Hlast. done.
Qed.

End trim_facts.

(** ** The transformation of a source task *)

Section transform_facts.

Import Sync.

Lemma transform_Some task p :
  transform task = Some p ->
  exists title, task_title task = Some title /\ truthy title = true
                /\ p = todoistPayload title task.
Proof.
  unfold transform. destruct (task_title task) as [title|]; [|done].
  destruct (truthy title) eqn:E; [|done]. intros [= <-]. eauto.
Qed.

Lemma transform_None task : transform task = None <-> lacks_title task.
Proof.
  unfold transform, lacks_title.
  destruct (task_title task) as [[|c title]|]; simpl.
  - split; [by right | done].
  - split; [done | by intros [|]].
  - split; [by left | done].
Qed.

Lemma emailLink_first task l1 l l2 :
  task_links task = Some (l1 ++ l :: l2) ->
  Forall (fun x => ~ is_email x) l1 -> is_email l ->
  emailLink task = Some l.
Proof.
  unfold emailLink, is_email. intros -> Hl1 Hl.
  induction Hl1 as [|x l1 Hx _ IH]; simpl.
  - by rewrite bool_decide_eq_true_2.
  - by rewrite bool_decide_eq_false_2.
Qed.

Lemma annotation_no_leading_space url : no_leading_space (annotation url).
Proof. intros c [= <-]. reflexivity. Qed.

Lemma annotation_ends_in_ink url : ends_in_ink url -> ends_in_ink (annotation url).
Proof. apply ends_in_ink_app. Qed.

Lemma has_ink_truthy s : has_ink s -> truthy s = true.
Proof. by destruct 1. Qed.

End transform_facts.

Example transform_call_bob :
  Sync.transform call_bob =
  Some {| content := lit "Call Bob";
          description :=
            lit "re: contract" ++ Sync.separator
              ++ lit "Linked Email: https://mail.example/x";
          due_date := Some (lit "2024-05-01") |}.
Proof. reflexivity. Qed.

(** C3, as stated, fails: the notes of [blank_notes] are not empty and it has
    an email link, yet in the description sent to Todoist the annotation
    follows ["---\n"], not the full separator ["\n\n---\n"]: [trim] removed
    the notes and the two line feeds. *)
Lemma description_separator_counterexample :
  exists p l,
    Sync.transform blank_notes = Some p
    /\ task_links blank_notes = Some [l] /\ is_email l
    /\ task_notes blank_notes <> None /\ task_notes blank_notes <> Some []
    /\ description p = lit "---" ++ [LF] ++ Sync.annotation (link_url l)
    /\ ~ (Sync.separator ++ Sync.annotation (link_url l))
           `suffix_of` description p.
Proof.
  eexists _, _. repeat split; try reflexivity; try done.
  intros [k Hk]. apply (f_equal length) in Hk.
  rewrite length_app in Hk. simpl in Hk. lia.
Qed.

(** C3, amended: for a task with a title and a first email link [l], the
    description sent to Todoist is the trimmed concatenation of the notes,
    the separator when the notes are not empty, and ["Linked Email: "]
    followed by the URL of [l]; it has white space at neither end; it ends
    with the annotation when the URL ends in a character that is not white
    space, and the separator precedes the annotation when moreover the notes
    hold such a character. *)
Theorem description_with_email_link (task : GTask) (p : TodoistPayload)
    (l1 : list Link) (l : Link) (l2 : list Link) :
  Sync.transform task = Some p ->
  task_links task = Some (l1 ++ l :: l2) ->
  Forall (fun x => ~ is_email x) l1 ->
  is_email l ->
  let notes := default [] (task_notes task) in
  let url := link_url l in
  description p
    = trim (notes ++ (if truthy notes then Sync.separator else [])
              ++ Sync.annotation url)
  /\ no_leading_space (description p)
  /\ no_trailing_space (description p)
  /\ (ends_in_ink url -> Sync.annotation url `suffix_of` description p)
  /\ (ends_in_ink url -> has_ink notes ->
      (Sync.separator ++ Sync.annotation url) `suffix_of` description p).
Proof.
  intros Hp Hlinks Hl1 Hl notes url.
  apply transform_Some in Hp as (title & _ & _ & ->). simpl.
  assert (Hdesc : Sync.description_of task
                  = notes ++ (if truthy notes then Sync.separator else [])
                      ++ Sync.annotation url).
  { unfold Sync.description_of. rewrite (emailLink_first _ _ _ _ Hlinks Hl1 Hl).
    fold notes url. destruct (truthy notes); [by rewrite <- app_assoc | done]. }
  rewrite Hdesc. split; [done|].
  split; [apply trim_no_leading_space|].
  split; [apply trim_no_trailing_space|].
  split.
  - intros Hurl. unfold trim. rewrite app_assoc.
    destruct (trimStart_app_r (notes ++ (if truthy notes then Sync.separator else []))
                (Sync.annotation url)) as (a' & _ & ->);
      [done | apply annotation_no_leading_space |].
    rewrite trimEnd_ends_in_ink
      by (apply ends_in_ink_app, annotation_ends_in_ink, Hurl).
    by exists a'.
  - intros Hurl Hnotes. unfold trim.
    rewrite (has_ink_truthy _ Hnotes), trimStart_app_ink by done.
    rewrite trimEnd_ends_in_ink
      by (do 2 apply ends_in_ink_app; apply annotation_ends_in_ink, Hurl).
    by exists (trimStart notes).
Qed.

Lemma description_with_email_link_witness :
  let l := {| link_type := lit "email";
              link_url := lit "https://mail.example/x" |} in
  let p := {| content := lit "Call Bob";
              description :=
                lit "re: contract" ++ Sync.separator
                  ++ lit "Linked Email: https://mail.example/x";
              due_date := Some (lit "2024-05-01") |} in
  (Sync.transform call_bob = Some p
   /\ task_links call_bob = Some ([] ++ l :: [])
   /\ Forall (fun x => ~ is_email x) []
   /\ is_email l)
  /\ (Sync.separator ++ Sync.annotation (link_url l))
       `suffix_of` description p.
Proof.
  intros l p.
  assert (H : Sync.transform call_bob = Some p
              /\ task_links call_bob = Some ([] ++ l :: [])
              /\ Forall (fun x => ~ is_email x) []
              /\ is_email l).
  { repeat split; try reflexivity. constructor. }
  split; [exact H|].
  destruct H as (H1 & H2 & H3 & H4).
  apply (description_with_email_link call_bob p [] l [] H1 H2 H3 H4).
  - eexists. split; [reflexivity | reflexivity].
  - apply Exists_cons_hd. reflexivity.
Defined.

(** C4: a task without a title yields no payload, and the callback leaves
    the state as it found it: nothing is logged, nothing is created in
    Todoist and nothing is removed from the source list. *)
Theorem untitled_task_skipped (env : Env) (TODOIST_API_TOKEN taskListId : jsstring)
    (task : GTask) (s : State) :
  lacks_title task ->
  Sync.transform task = None
  /\ Sync.processTask env TODOIST_API_TOKEN taskListId task s = (Normal tt, s).
Proof.
  intros H. apply transform_None in H.
  split; [done|]. unfold Sync.processTask. by rewrite H.
Qed.

Lemma untitled_task_skipped_witness :
  lacks_title titled_blank
  /\ Sync.processTask todoist_refuses_b (lit "token") (lit "L1") titled_blank
        (start [titled_blank])
     = (Normal tt, start [titled_blank]).
Proof.
  assert (H : lacks_title titled_blank) by (by right).
  split; [exact H|].
  exact (proj2 (untitled_task_skipped todoist_refuses_b (lit "token") (lit "L1")
                  titled_blank (start [titled_blank]) H)).
Defined.

(** C6: a due value of at least ten code units reaches Todoist cut to its
    first ten, and without a due value the payload has no [due_date]. *)
Theorem due_date_truncated (task : GTask) (p : TodoistPayload) :
  Sync.transform task = Some p ->
  (forall due, task_due task = Some due -> 10 <= length due ->
               due_date p = Some (take 10 due))
  /\ (task_due task = None -> due_date p = None).
Proof.
  intros Hp. apply transform_Some in Hp as (title & _ & _ & ->). simpl.
  split.
  - intros due -> Hlen. destruct due as [|c due]; [simpl in Hlen; lia|].
    simpl truthy. cbv iota. f_equal. unfold substring.
    rewrite Nat.min_0_l, Nat.min_0_l, Nat.max_0_l, Nat.sub_0_r.
    rewrite Nat.min_l by done. by rewrite drop_0.
  - by intros ->.
Qed.

Lemma due_date_truncated_witness :
  Sync.transform call_bob
    = Some (Sync.todoistPayload (lit "Call Bob") call_bob)
  /\ due_date (Sync.todoistPayload (lit "Call Bob") call_bob)
     = Some (lit "2024-05-01").
Proof.
  split; [reflexivity|].
  apply (proj1 (due_date_truncated call_bob _ eq_refl)
           (lit "2024-05-01T00:00:00Z") eq_refl).
  vm_compute. lia.
Defined.

(** ** Runs and their events *)

Lemma events_of_eq {A} (m : M A) s r gt' evs :
  m s = (r, {| gtasks := gt'; trace := trace s ++ evs |}) ->
  events_of m s = evs.
Proof. unfold events_of. intros ->. simpl. by rewrite drop_app_length. Qed.

(** ** The sync script, one task at a time *)

Section sync_facts.

Context (env : Env) (tok lid : jsstring).

(** The callback never throws, whatever Todoist and Google Tasks answer. *)
Lemma processTask_step task s :
  exists evs gt',
    Sync.processTask env tok lid task s
      = (Normal tt, {| gtasks := gt'; trace := trace s ++ evs |})
    /\ step_facts tok lid task (gtasks s) gt' evs.
Proof.
  unfold Sync.processTask, Sync.createTodoistTask_, Sync.UrlFetchApp_post,
    Sync.Tasks_remove, try_catch, bind, call, log, ret, emit; simpl.
  destruct (Sync.transform task) as [p|] eqn:Htr; simpl.
  2:{ exists [], (gtasks s). rewrite app_nil_r. split; [by destruct s|].
      split; try done; try (intros; in_inv); by left. }
  destruct (Sync.emailLink task); simpl;
    (destruct (fetch_post env _ p tok) as [r|e] eqn:Hpost; simpl;
     [ destruct (getResponseCode r =? 200)%Z eqn:Hcode; simpl;
       [ apply Z.eqb_eq in Hcode;
         destruct (tasks_remove_error env _ lid (task_id task)) eqn:Hrm; simpl
       | apply Z.eqb_neq in Hcode ]
     | ]);
    rewrite <- !app_assoc; simpl; eexists _, _; (split; [reflexivity|]).
  all: unfold created_by; split.
  all: try solve [ intros; in_inv; done ].
  all: try solve [ intros ? Hp0; rewrite Htr in Hp0; simplify_eq;
                   eexists; in_list ].
  all: try solve [ intros; in_inv; (split; [done|]); (split; [done|]);
                   exists p; (split; [done|]); eexists; split; [in_list | done] ].
  all: try solve [ intros ? (? & Hin & ?); in_inv; eexists; in_list ].
  all: try solve [ by left ].
  all: try solve [ right; split; [done | in_list] ].
  all: try solve [ intros; in_inv; split; [in_list | done] ].
  all: try solve [ intros ? Hp0 Hn; rewrite Htr in Hp0; simplify_eq; first
                     [ split; [in_list | done]
                     | exfalso; apply Hn; eexists; split; [in_list | done] ] ].
Qed.

(** The whole batch: every task is handed to the callback, in order. *)
Lemma forEach_processTask items s :
  exists evs gt',
    forEach (Sync.processTask env tok lid) items s
      = (Normal tt, {| gtasks := gt'; trace := trace s ++ evs |})
    /\ (forall task p, task ∈ items -> Sync.transform task = Some p ->
          exists out, FetchPost p tok out ∈ evs)
    /\ (forall l t out, TasksRemove l t out ∈ evs ->
          l = lid
          /\ exists task p, task ∈ items /\ task_id task = t
                            /\ Sync.transform task = Some p
                            /\ created_by tok p evs)
    /\ (forall x, x ∈ gtasks s ->
          x ∈ gt' \/ exists out, TasksRemove lid (task_id x) out ∈ evs)
    /\ (forall l t e, TasksRemove l t (Throw e) ∈ evs ->
          Log ConsoleError (MsgFailedToDelete t e) ∈ evs).
Proof.
  revert s. induction items as [|task items IH]; intros s.
  - exists [], (gtasks s). simpl. unfold ret. rewrite app_nil_r.
    split; [by destruct s|].
    repeat split; try (intros; in_inv; done). by left.
  - simpl. unfold bind.
    destruct (processTask_step task s) as (evs1 & gt1 & -> & F).
    destruct (IH {| gtasks := gt1; trace := trace s ++ evs1 |})
      as (evs2 & gt2 & -> & Hpost & Hrem & Hkeep & Hlog).
    simpl in *. exists (evs1 ++ evs2), gt2. rewrite app_assoc.
    split; [done|]. split; [|split; [|split]].
    + intros t p [->|Hin]%elem_of_cons Htr.
      * destruct (posts_transform _ _ _ _ _ _ F p Htr) as [out Hout].
        exists out. apply elem_of_app. by left.
      * destruct (Hpost t p Hin Htr) as [out Hout].
        exists out. apply elem_of_app. by right.
    + intros l t out [H|H]%elem_of_app.
      * destruct (removal_needs_created _ _ _ _ _ _ F _ _ _ H)
          as (-> & -> & p & Htr & r & Hr & Hc).
        split; [done|]. exists task, p. repeat split; [by left | done |].
        exists r. split; [|done]. apply elem_of_app. by left.
      * destruct (Hrem _ _ _ H)
          as (-> & t' & p & Hin & Hid & Htr & r & Hr & Hc).
        split; [done|]. exists t', p. repeat split; [by right | done | done |].
        exists r. split; [|done]. apply elem_of_app. by right.
    + intros x Hx.
      assert (x ∈ gt1 \/ exists out, TasksRemove lid (task_id x) out ∈ evs1)
        as [Hx1|[out Hout]].
      { destruct (store_after _ _ _ _ _ _ F) as [->|[-> Hev]]; [by left|].
        destruct (decide (task_id x = task_id task)) as [Heq|Hne].
        - right. exists (Normal tt). by rewrite Heq.
        - left. by apply list_elem_of_filter. }
      * destruct (Hkeep x Hx1) as [?|[out Hout]]; [by left|].
        right. exists out. apply elem_of_app. by right.
      * right. exists out. apply elem_of_app. by left.
    + intros l t e [H|H]%elem_of_app; apply elem_of_app.
      * left. by apply (removal_failure_logged _ _ _ _ _ _ F l).
      * right. by apply (Hlog l).
Qed.

(** What the callback posts is the payload of [transform], with the token it
    was given. *)
Lemma processTask_posts_transform task s p tok' out :
  FetchPost p tok' out ∈ events_of (Sync.processTask env tok lid task) s ->
  Sync.transform task = Some p /\ tok' = tok.
Proof.
  destruct (processTask_step task s) as (evs & gt' & Hrun & F).
  rewrite (events_of_eq _ _ _ _ _ Hrun).
  apply (posts_only_transform _ _ _ _ _ _ F).
Qed.

End sync_facts.

(** ** The sync script, a whole run *)

Section sync_run.

Lemma sync_ready env tok lid s :
  ready env tok lid ->
  exists pre,
    (forall ev, ev ∈ pre -> ~ mutates ev)
    /\ Sync.syncGoogleTasksToTodoist env s
       = forEach (Sync.processTask env tok lid) (gtasks s)
           {| gtasks := gtasks s; trace := trace s ++ pre |}.
Proof.
  intros (name & Htok & Htt & Hname & Hnt & Hlt & Hlists & Hlist).
  unfold Sync.syncGoogleTasksToTodoist. rewrite Htok, Hname, Htt, Hnt. simpl.
  unfold Sync.getTaskListIdByName_, Sync.Tasklists_list, Sync.Tasks_list,
    try_catch, bind, call, log, ret, emit. simpl.
  destruct (Hlists (trace s)) as (items & l & -> & -> & ->). rewrite Hlt.
  rewrite Hlist.
  destruct (gtasks s) as [|g gs] eqn:Hg.
  - exists [TasklistsList (Normal (Some items));
             Log ConsoleLog (MsgFoundList name lid);
             TasksList lid (Normal None); Log ConsoleLog MsgNoTasksToSync].
    split; [intros ev Hev Hm; in_inv; done|].
    simpl. unfold ret. repeat rewrite <- app_assoc. reflexivity.
  - exists [TasklistsList (Normal (Some items));
             Log ConsoleLog (MsgFoundList name lid);
             TasksList lid (Normal (Some (g :: gs)));
             Log ConsoleLog (MsgFoundToSync (length (g :: gs)))].
    split; [intros ev Hev Hm; in_inv; done|].
    set (F := forEach (Sync.processTask env tok lid)).
    simpl. repeat rewrite <- app_assoc. simpl.
    match goal with |- context [F ?l ?st] =>
      destruct (forEach_processTask env tok lid l st) as (evs & gt' & Hrun & _)
    end.
    fold F in Hrun. rewrite Hrun. reflexivity.
Qed.


(** A run over a ready environment, from a fresh trace. *)
Lemma sync_run env tok lid source :
  ready env tok lid ->
  exists evs gt',
    Sync.syncGoogleTasksToTodoist env (start source)
      = (Normal tt, {| gtasks := gt'; trace := evs |})
    /\ (forall task p, task ∈ source -> Sync.transform task = Some p ->
          exists out, FetchPost p tok out ∈ evs)
    /\ (forall l t out, TasksRemove l t out ∈ evs ->
          l = lid
          /\ exists task p, task ∈ source /\ task_id task = t
                            /\ Sync.transform task = Some p
                            /\ created_by tok p evs)
    /\ (forall x, x ∈ source ->
          x ∈ gt' \/ exists out, TasksRemove lid (task_id x) out ∈ evs)
    /\ (forall l t e, TasksRemove l t (Throw e) ∈ evs ->
          Log ConsoleError (MsgFailedToDelete t e) ∈ evs).
Proof.
  intros Hready. destruct (sync_ready env tok lid (start source) Hready)
    as (pre & Hpre & ->).
  destruct (forEach_processTask env tok lid source
              {| gtasks := source; trace := pre |})
    as (evs & gt' & Hrun & Hpost & Hrem & Hkeep & Hlog).
  simpl in *. rewrite Hrun. exists (pre ++ evs), gt'.
  split; [done|]. split; [|split; [|split]].
  - intros task p Hin Htr. destruct (Hpost task p Hin Htr) as [out Hout].
    exists out. apply elem_of_app. by right.
  - intros l t out [H|H]%elem_of_app; [by destruct (Hpre _ H)|].
    destruct (Hrem _ _ _ H) as (-> & task & p & ? & ? & ? & r & ? & ?).
    split; [done|]. exists task, p. repeat split; try done.
    exists r. split; [|done]. apply elem_of_app. by right.
  - intros x Hx. destruct (Hkeep x Hx) as [?|[out Hout]]; [by left|].
    right. exists out. apply elem_of_app. by right.
  - intros l t e [H|H]%elem_of_app; [by destruct (Hpre _ H)|].
    apply elem_of_app. right. by apply (Hlog l).
Qed.

End sync_run.

(** The scenario of the specification: of three tasks the second is refused;
    the other two are created and removed, the refused one stays. *)
Example one_of_three_refused :
  gtasks (Sync.syncGoogleTasksToTodoist todoist_refuses_b (start three_tasks)).2
  = [titled "2" "b"].
Proof. reflexivity. Qed.

Lemma todoist_refuses_b_ready : ready todoist_refuses_b (lit "token") (lit "L1").
Proof.
  exists (lit "My Tasks"). repeat split; try reflexivity.
  intros tr. eexists _, _. repeat split; reflexivity.
Qed.



(** ** The grouping of the report *)

Section grouping_facts.

Implicit Types (projectMap : gmap jsstring jsstring)
  (acc m : gmap jsstring (list TaskRow)) (k : jsstring).

Lemma get_plain {V} (o : gmap jsstring V) k :
  plain_key k ->
  Obj.get o k = match o !! k with Some v => Obj.Own v | None => Obj.Undefined end.
Proof.
  intros Hk. unfold Obj.get. destruct (o !! k); [done|].
  by rewrite bool_decide_eq_false_2.
Qed.

Lemma set_lookup_ne {V} (o : gmap jsstring V) k k' v :
  k <> k' -> Obj.set o k v !! k' = o !! k'.
Proof.
  intros Hne. unfold Obj.set. case_bool_decide; [done|].
  by rewrite lookup_insert_ne.
Qed.

Lemma projectMap_fold_unresolved projects projectMap k :
  Forall (fun p => project_id_of p <> k) projects ->
  foldl (fun projectMap project =>
           Obj.set projectMap (project_id_of project) (project_name project))
        projectMap projects !! k = projectMap !! k.
Proof.
  intros H. revert projectMap.
  induction H as [|p projects Hp _ IH]; intros projectMap; simpl; [done|].
  rewrite IH. by apply set_lookup_ne.
Qed.

(** A project id that no fetched project bears owns no entry of the map. *)
Lemma projectMap_of_unresolved projects k :
  Forall (fun p => project_id_of p <> k) projects ->
  Report.projectMap_of projects !! k = None.
Proof.
  intros H. unfold Report.projectMap_of.
  by rewrite projectMap_fold_unresolved.
Qed.

(** For a project id that no fetched project bears and that is not a member
    of the prototype, the lookup yields [undefined]. *)
Lemma unresolved_plain_id_Undefined projects task :
  Forall (fun p => project_id_of p <> todoist_project_id task) projects ->
  plain_key (todoist_project_id task) ->
  Obj.get (Report.projectMap_of projects) (todoist_project_id task)
  = Obj.Undefined.
Proof.
  intros H Hk. by rewrite (get_plain _ _ Hk), projectMap_of_unresolved.
Qed.

Lemma groupTasks_plain projectMap tasks acc :
  Forall (fun task => plain_key (Report.projectName_of projectMap task)) tasks ->
  exists m,
    Report.groupTasks projectMap tasks acc = Normal m
    /\ forall k,
         m !! k = match rows_for projectMap k tasks with
                  | [] => acc !! k
                  | rows => Some (default [] (acc !! k) ++ rows)
                  end.
Proof.
  intros H. revert acc.
  induction H as [|task tasks Hk _ IH]; intros acc; simpl.
  - by exists acc.
  - unfold Report.groupTask. rewrite (get_plain _ _ Hk).
    set (k0 := Report.projectName_of projectMap task) in *.
    destruct (acc !! k0) as [rows|] eqn:E; simpl.
    + destruct (IH (<[k0 := rows ++ [Report.row_of task]]> acc))
        as (m & -> & Hm).
      exists m. split; [done|]. intros k. rewrite Hm. unfold rows_for.
      rewrite filter_cons. fold k0.
      destruct (decide (k0 = k)) as [<-|Hne].
      * rewrite fmap_cons, lookup_insert_eq, E. simpl.
        destruct (Report.row_of <$> filter _ tasks); simpl;
          [done | by rewrite <- app_assoc].
      * by rewrite lookup_insert_ne.
    + destruct (IH (<[k0 := [Report.row_of task]]> acc)) as (m & -> & Hm).
      exists m. split; [done|]. intros k. rewrite Hm. unfold rows_for.
      rewrite filter_cons. fold k0.
      destruct (decide (k0 = k)) as [<-|Hne].
      * rewrite fmap_cons, lookup_insert_eq, E. simpl.
        by destruct (Report.row_of <$> filter _ tasks).
      * by rewrite lookup_insert_ne.
Qed.

(** When no project name in play is a member of the prototype, the grouping
    returns, and the group of every name holds the rows of exactly the tasks
    of that name, in their order. *)
Lemma group_plain projects tasks :
  Forall (fun task =>
            plain_key (Report.projectName_of (Report.projectMap_of projects) task))
         tasks ->
  exists m,
    Report.group projects tasks = Normal m
    /\ forall k,
         m !! k = match rows_for (Report.projectMap_of projects) k tasks with
                  | [] => None
                  | rows => Some rows
                  end.
Proof.
  intros H. destruct (groupTasks_plain _ _ ∅ H) as (m & Hm & Hk).
  exists m. split; [done|]. intros k. rewrite Hk, lookup_empty. done.
Qed.

End grouping_facts.

(** ** The report script, a whole run *)

Section report_facts.

Context (env : Env).

Lemma deleteYesterdaysReport_facts folderId s :
  exists evs,
    Report.deleteYesterdaysReport env folderId s
      = (Normal tt, {| gtasks := gtasks s; trace := trace s ++ evs |})
    /\ (forall ev, ev ∈ evs -> cleanup_event ev)
    /\ (forall fld name out, GetFilesByName fld name out ∈ evs ->
          name = Report.fileName (clock env (trace s)))
    /\ (forall ev e, ev ∈ evs -> cleanup_failure e ev ->
          Log LoggerLog (MsgCouldNotCleanUp e) ∈ evs)
    /\ (forall fld name, GetFilesByName fld name (Normal []) ∈ evs ->
          Log LoggerLog MsgNoReportFromYesterday ∈ evs
          /\ (forall fid out, SetTrashed fid out ∉ evs)
          /\ (forall e, Log LoggerLog (MsgCouldNotCleanUp e) ∉ evs)).
Proof.
  unfold Report.deleteYesterdaysReport, Report.new_Date, try_catch, bind,
    call, log, ret, emit; simpl.
  destruct (drive_getFolderById env (trace s) folderId) as [folder|e] eqn:Hf;
    simpl;
    [ destruct (drive_getFilesByName env _ folder _) as [[|file files]|e] eqn:Hn;
      simpl;
      [ | destruct (drive_setTrashed env _ (file_id file)) as [[]|e] eqn:Ht;
          simpl | ] | ];
    repeat rewrite <- app_assoc; simpl; eexists; (split; [reflexivity|]).
  all: repeat split; unfold not;
    try solve [ intros; in_inv; simpl in *; done ].
  all: try solve [ intros; in_inv; simpl in *; try done; subst; in_list ].
  all: try solve [ in_list ].
Qed.

Lemma keys_empty_iff (m : gmap jsstring (list TaskRow)) :
  length (Obj.keys m) = 0 <-> m = ∅.
Proof.
  unfold Obj.keys. rewrite length_fmap, length_zero_iff_nil.
  apply map_to_list_empty_iff.
Qed.

Lemma groupTask_nonempty pm acc task acc' :
  Report.groupTask pm acc task = Normal acc' -> acc' <> ∅.
Proof.
  unfold Report.groupTask.
  destruct (Obj.get acc _); intros [= <-]; apply insert_non_empty.
Qed.

Lemma groupTask_grows pm acc task acc' k :
  Report.groupTask pm acc task = Normal acc' ->
  is_Some (acc !! k) -> is_Some (acc' !! k).
Proof.
  unfold Report.groupTask.
  destruct (Obj.get acc _); intros [= <-] Hk; by apply lookup_insert_is_Some'; right.
Qed.

Lemma groupTasks_grows pm tasks acc m k :
  Report.groupTasks pm tasks acc = Normal m ->
  is_Some (acc !! k) -> is_Some (m !! k).
Proof.
  revert acc. induction tasks as [|task tasks IH]; simpl; intros acc.
  - by intros [= <-].
  - destruct (Report.groupTask pm acc task) as [acc'|e] eqn:E; [|done].
    intros Hm Hk. apply (IH acc' Hm). by apply (groupTask_grows pm acc task).
Qed.

(** The grouping is the empty object exactly for the empty task list. *)
Lemma group_empty_iff projects tasks m :
  Report.group projects tasks = Normal m -> (tasks = [] <-> m = ∅).
Proof.
  unfold Report.group. destruct tasks as [|task tasks]; simpl.
  - intros [= <-]. done.
  - destruct (Report.groupTask _ ∅ task) as [acc'|e] eqn:E; [|done].
    intros Hm. split; [done|]. intros ->. exfalso.
    apply groupTask_nonempty in E as Hne.
    destruct (map_choose acc' Hne) as (k & v & Hk).
    destruct (groupTasks_grows _ _ _ _ k Hm) as [v' Hv']; [by eexists|].
    by rewrite lookup_empty in Hv'.
Qed.

(** With no task fetched, the run writes logs and reads, and at most trashes
    yesterday's report; it creates nothing, and once the tasks are fetched it
    says that it aborts. *)
Lemma report_without_tasks s :
  (forall tr tok, fetch_tasks env tr tok = Normal []) ->
  (forall ev, ev ∈ events_of (Report.createTodoistReport env) s ->
              ~ creates_document ev)
  /\ ((exists tok out,
         FetchTasks tok out ∈ events_of (Report.createTodoistReport env) s) ->
      Log LoggerLog MsgNoTasksAborting
        ∈ events_of (Report.createTodoistReport env) s).
Proof.
  intros Htasks.
  assert (exists evs r,
            Report.createTodoistReport env s
              = (r, {| gtasks := gtasks s; trace := trace s ++ evs |})
            /\ (forall ev, ev ∈ evs -> ~ creates_document ev)
            /\ ((exists tok out, FetchTasks tok out ∈ evs) ->
                Log LoggerLog MsgNoTasksAborting ∈ evs))
    as (evs & r & Hrun & Hevs).
  2:{ by rewrite (events_of_eq _ _ _ _ _ Hrun). }
  unfold Report.createTodoistReport.
  destruct (getProperty env (lit "TODOIST_API_TOKEN")) as [tok|];
    [destruct (getProperty env (lit "GOOGLE_DRIVE_FOLDER_ID")) as [folderId|];
     [destruct (truthy tok && truthy folderId)|]|].
  2-4: exists [Log LoggerLog MsgSetProperties], (Normal tt);
       (split; [done|]); split;
       [ intros ev Hev Hd; in_inv; done | intros (? & ? & H); in_inv ].
  unfold try_catch, bind, log, emit.
  destruct (deleteYesterdaysReport_facts folderId
              {| gtasks := gtasks s;
                 trace := trace s ++ [Log LoggerLog MsgStarting] |})
    as (evs1 & Hclean & Hdoc & _).
  cbn [gtasks trace] in Hclean. rewrite Hclean.
  unfold Report.getUncompletedTasksByProject, Report.lift, bind, call, log, emit.
  cbn [gtasks trace].
  destruct (fetch_projects env _ tok) as [projects|e]; cbn [gtasks trace].
  - rewrite Htasks. unfold Report.group. cbn [Report.groupTasks].
    rewrite (proj2 (keys_empty_iff ∅) eq_refl). cbn [Nat.eqb gtasks trace].
    eexists (_ :: evs1 ++ [_; _; _; _; _; _]), _.
    split; [by repeat (rewrite <- app_assoc; cbn [app])|]. split.
    + intros ev [->|[Hev|Hev]%elem_of_app]%elem_of_cons Hd;
        [done | by destruct ev; destruct (Hdoc _ Hev) | in_inv; done].
    + intros _. apply list_elem_of_further, elem_of_app. right. in_list.
  - eexists (_ :: evs1 ++ [_; _; _; _]), _.
    split; [by repeat (rewrite <- app_assoc; cbn [app])|]. split.
    + intros ev [->|[Hev|Hev]%elem_of_app]%elem_of_cons Hd;
        [done | by destruct ev; destruct (Hdoc _ Hev) | in_inv; done].
    + intros (tok' & out & [?|[Hev|Hev]%elem_of_app]%elem_of_cons);
        [done | by destruct (Hdoc _ Hev) | in_inv].
Qed.

(** Whatever the cleanup met, the run goes on to fetch the projects. *)
Lemma report_continues tok folderId s :
  report_configured env tok folderId ->
  exists cleanup out rest,
    events_of (Report.deleteYesterdaysReport env folderId)
              (emit (Log LoggerLog MsgStarting) s) = cleanup
    /\ events_of (Report.createTodoistReport env) s
       = [Log LoggerLog MsgStarting] ++ cleanup
           ++ [Log LoggerLog MsgFetchingProjects; FetchProjects tok out]
           ++ rest.
Proof.
  intros (Htok & Htt & Hfolder & Hft).
  destruct (deleteYesterdaysReport_facts folderId
              (emit (Log LoggerLog MsgStarting) s))
    as (evs1 & Hclean & _).
  exists evs1. rewrite (events_of_eq _ _ _ _ _ Hclean).
  enough (exists out rest r,
            Report.createTodoistReport env s
            = (r, {| gtasks := gtasks s;
                     trace := trace s ++ [Log LoggerLog MsgStarting] ++ evs1
                       ++ [Log LoggerLog MsgFetchingProjects;
                           FetchProjects tok out] ++ rest |}))
    as (out & rest & r & Hrun).
  { exists out, rest. split; [done|]. by rewrite (events_of_eq _ _ _ _ _ Hrun). }
  unfold Report.createTodoistReport. rewrite Htok, Hfolder, Htt, Hft.
  cbn [andb]. unfold try_catch, bind, log. rewrite Hclean.
  unfold emit. cbn [gtasks trace].
  unfold Report.getUncompletedTasksByProject, Report.createAndPopulateSheet,
    Report.exportSheetAsPdf, Report.new_Date, Report.lift, try_catch, bind,
    call, log, throw, ret, emit.
  split_paths.
  all: eexists _, _, _; f_equal; f_equal; repeat rewrite <- app_assoc;
    cbn [app]; do 4 f_equal; reflexivity.
Qed.

End report_facts.

(** ** Names of the report and of its file *)

Section naming_facts.

Context (env : Env).






End naming_facts.

(** ** What the grouping does when it returns *)

Section grouping_total.

Implicit Types (projectMap : gmap jsstring jsstring)
  (acc m : gmap jsstring (list TaskRow)) (k : jsstring).

Lemma groupTasks_Normal_plain projectMap tasks acc m :
  Report.groupTasks projectMap tasks acc = Normal m ->
  (forall k, is_Some (acc !! k) -> plain_key k) ->
  Forall (fun task => plain_key (Report.projectName_of projectMap task)) tasks.
Proof.
  revert acc. induction tasks as [|task tasks IH]; intros acc; simpl; [done|].
  destruct (Report.groupTask projectMap acc task) as [acc'|e] eqn:E; [|done].
  intros Hm Hacc. unfold Report.groupTask, Obj.get in E.
  set (k0 := Report.projectName_of projectMap task) in *.
  assert (plain_key k0 /\ exists rows, acc' = <[k0 := rows]> acc) as [Hk0 [rows ->]].
  { destruct (acc !! k0) as [rows|] eqn:Hk.
    - simpl in E. injection E as <-.
      split; [apply Hacc; by exists rows | eexists; reflexivity].
    - case_bool_decide as Hmem; simpl in E; [done|]. injection E as <-.
      split; [done | eexists; reflexivity]. }
  apply Forall_cons. split; [done|]. apply (IH _ Hm).
  intros k [<-|[_ Hk]]%lookup_insert_is_Some; [done | by apply Hacc].
Qed.

(** A grouping that returns has filed every task, once, under its project
    name. *)
Lemma group_Normal projects tasks m :
  Report.group projects tasks = Normal m ->
  forall k,
    m !! k = match rows_for (Report.projectMap_of projects) k tasks with
             | [] => None
             | rows => Some rows
             end.
Proof.
  intros Hm.
  assert (H : Forall (fun task => plain_key
                (Report.projectName_of (Report.projectMap_of projects) task))
              tasks).
  { apply (groupTasks_Normal_plain _ _ ∅ m Hm). intros k [v Hv].
    by rewrite lookup_empty in Hv. }
  destruct (group_plain projects tasks H) as (m' & Hm' & Hk).
  rewrite Hm in Hm'. by injection Hm' as ->.
Qed.

Lemma row_in_rows_for projectMap tasks task :
  task ∈ tasks ->
  Report.row_of task
    ∈ rows_for projectMap (Report.projectName_of projectMap task) tasks.
Proof.
  intros Hin. unfold rows_for. apply list_elem_of_fmap_2.
  by apply list_elem_of_filter.
Qed.

End grouping_total.

Example group_errands :
  Report.group errands [buy_milk; no_content]
  = Normal
      (<[lit "Errands" :=
           [ {| row_content := lit "Buy milk"; row_due := lit "No due date" |} ]]>
         (<[lit "Inbox" :=
              [ {| row_content := []; row_due := lit "No due date" |} ]]> ∅)).
Proof. reflexivity. Qed.

(** C2 fails on the code for a project named like a property of
    [Object.prototype]: [tasksByProject["constructor"]] is then the inherited
    function, which is truthy, so no array is created and the call of [push]
    throws; the task reaches no group, and the run logs the error and creates
    no report. *)
Theorem grouping_throws_on_prototype_name :
  Report.projectName_of (Report.projectMap_of constructor_project)
                        task_in_constructor = lit "constructor"
  /\ Obj.get (∅ : gmap jsstring (list TaskRow)) (lit "constructor")
     = Obj.Inherited (lit "constructor")
  /\ Report.group constructor_project [task_in_constructor]
     = Throw Report.push_is_not_a_function
  /\ (let run := Report.createTodoistReport constructor_named (start []) in
      run.1 = Normal tt
      /\ Log LoggerLog (MsgErrorOccurred Report.push_is_not_a_function)
           ∈ trace run.2
      /\ Forall (fun ev => ~ creates_document ev) (trace run.2)).
Proof.
  split; [reflexivity|]. split; [reflexivity|]. split; [reflexivity|].
  intros run.
  let t := eval vm_compute in (trace run.2) in change (trace run.2) with t.
  split; [reflexivity|]. split; [in_list|].
  repeat (apply Forall_cons; split; [by intros ?|]). by apply Forall_nil.
Qed.



(** C8: when the fetch of the tasks yields none, the run creates neither a
    spreadsheet nor a file, and logs that it aborts once the tasks are
    fetched; and the grouping of an empty list is the empty object, the only
    case in which a grouping has no key. *)
Theorem no_empty_report (env : Env) (s : State) :
  (forall tr tok, fetch_tasks env tr tok = Normal []) ->
  (forall ev, ev ∈ events_of (Report.createTodoistReport env) s ->
              ~ creates_document ev)
  /\ ((exists tok out,
         FetchTasks tok out ∈ events_of (Report.createTodoistReport env) s) ->
      Log LoggerLog MsgNoTasksAborting
        ∈ events_of (Report.createTodoistReport env) s)
  /\ (forall projects, Report.group projects [] = Normal ∅)
  /\ (forall projects tasks m,
        Report.group projects tasks = Normal m ->
        (tasks = [] <-> m = ∅)
        /\ (m = ∅ <-> length (Obj.keys m) = 0)).
Proof.
  intros Htasks. destruct (report_without_tasks env s Htasks) as [H1 H2].
  split; [done|]. split; [done|]. split; [done|].
  intros projects tasks m Hm. split; [by apply (group_empty_iff projects)|].
  symmetry. apply keys_empty_iff.
Qed.

Lemma no_empty_report_witness :
  (forall tr tok, fetch_tasks todoist_refuses_b tr tok = Normal [])
  /\ (forall ev,
        ev ∈ events_of (Report.createTodoistReport todoist_refuses_b) (start [])
        -> ~ creates_document ev).
Proof.
  assert (H : forall tr tok, fetch_tasks todoist_refuses_b tr tok = Normal [])
    by reflexivity.
  split; [exact H|].
  exact (proj1 (no_empty_report todoist_refuses_b (start []) H)).
Defined.

Lemma deletions_refused_ready : ready deletions_refused (lit "token") (lit "L1").
Proof.
  exists (lit "My Tasks"). repeat split; try reflexivity.
  intros tr. eexists _, _. repeat split; reflexivity.
Qed.

(** With every removal refused, each of the three tasks is still created in
    Todoist, and all three stay in the source list. *)
Example refused_removals_do_not_stop_the_batch :
  let run := Sync.syncGoogleTasksToTodoist deletions_refused (start three_tasks) in
  run.1 = Normal tt
  /\ gtasks run.2 = three_tasks
  /\ omap (fun ev => match ev with
                     | FetchPost p _ _ => Some (content p)
                     | _ => None
                     end) (trace run.2)
     = [lit "a"; lit "b"; lit "c"].
Proof. repeat split; reflexivity. Qed.

(** C7: a deletion that fails during cleanup is logged and the run goes on.
    In the report script [deleteYesterdaysReport] completes normally whatever
    Drive answers, a Drive call of it that throws is logged, and a configured
    run continues with the fetch of the projects. In the sync script the
    callback completes normally, a removal that throws is logged with the
    task's id, and a run that reaches the batch posts the payload of every
    titled task of it, whichever removals failed. *)
Theorem cleanup_failure_not_fatal :
  (forall env folderId s,
     (Report.deleteYesterdaysReport env folderId s).1 = Normal tt
     /\ forall ev e,
          ev ∈ events_of (Report.deleteYesterdaysReport env folderId) s ->
          cleanup_failure e ev ->
          Log LoggerLog (MsgCouldNotCleanUp e)
            ∈ events_of (Report.deleteYesterdaysReport env folderId) s)
  /\ (forall env tok folderId s,
        report_configured env tok folderId ->
        exists cleanup out rest,
          events_of (Report.deleteYesterdaysReport env folderId)
                    (emit (Log LoggerLog MsgStarting) s) = cleanup
          /\ events_of (Report.createTodoistReport env) s
             = [Log LoggerLog MsgStarting] ++ cleanup
                 ++ [Log LoggerLog MsgFetchingProjects; FetchProjects tok out]
                 ++ rest)
  /\ (forall env tok lid task s,
        (Sync.processTask env tok lid task s).1 = Normal tt
        /\ forall l t e,
             TasksRemove l t (Throw e)
               ∈ events_of (Sync.processTask env tok lid task) s ->
             Log ConsoleError (MsgFailedToDelete (task_id task) e)
               ∈ events_of (Sync.processTask env tok lid task) s)
  /\ (forall env tok lid source,
        ready env tok lid ->
        let run := Sync.syncGoogleTasksToTodoist env (start source) in
        run.1 = Normal tt
        /\ (forall task p, task ∈ source -> Sync.transform task = Some p ->
              exists out, FetchPost p tok out ∈ trace run.2)
        /\ (forall l t e, TasksRemove l t (Throw e) ∈ trace run.2 ->
              Log ConsoleError (MsgFailedToDelete t e) ∈ trace run.2)).
Proof.
  split; [|split; [|split]].
  - intros env folderId s.
    destruct (deleteYesterdaysReport_facts env folderId s)
      as (evs & Hrun & _ & _ & Hlog & _).
    rewrite (events_of_eq _ _ _ _ _ Hrun), Hrun. split; [done|].
    intros ev e. apply Hlog.
  - intros env tok folderId s. apply report_continues.
  - intros env tok lid task s.
    destruct (processTask_step env tok lid task s) as (evs & gt' & Hrun & F).
    rewrite (events_of_eq _ _ _ _ _ Hrun), Hrun. split; [done|].
    intros l t e Hev.
    destruct (removal_needs_created _ _ _ _ _ _ F _ _ _ Hev) as (_ & <- & _).
    by apply (removal_failure_logged _ _ _ _ _ _ F l).
  - intros env tok lid source R run. subst run.
    destruct (sync_run env tok lid source R)
      as (evs & gt' & -> & Hpost & _ & _ & Hlog).
    simpl. split; [done|]. split; [done|]. intros l. apply Hlog.
Qed.

Lemma cleanup_failure_not_fatal_witness :
  let run := Sync.syncGoogleTasksToTodoist deletions_refused (start three_tasks) in
  ready deletions_refused (lit "token") (lit "L1")
  /\ TasksRemove (lit "L1") (lit "1") (Throw permission_denied) ∈ trace run.2
  /\ Log ConsoleError (MsgFailedToDelete (lit "1") permission_denied)
       ∈ trace run.2.
Proof.
  intros run. split; [apply deletions_refused_ready|].
  assert (H : TasksRemove (lit "L1") (lit "1") (Throw permission_denied)
                ∈ trace run.2).
  { let t := eval vm_compute in (trace run.2) in change (trace run.2) with t.
    in_list. }
  split; [exact H|].
  exact (proj2 (proj2 (proj2 (proj2 (proj2 cleanup_failure_not_fatal))
                         deletions_refused _ _ three_tasks
                         deletions_refused_ready))
           _ _ _ H).
Defined.

Example names_on_march_first :
  Report.sheetName march_first = lit "Todoist Report - 3-1-2024"
  /\ Report.fileName march_first = lit "Todoist Report - 2-29-2024.pdf".
Proof. split; reflexivity. Qed.







(** * Further properties of the code *)

(** ** The sync script: lookup, creation and the source list *)

Section sync_more.

Context (env : Env).

Lemma find_first_titled name items l :
  find (fun l => bool_decide (list_title l = name)) items = Some l
  <-> first_titled name items l.
Proof.
  unfold first_titled. induction items as [|x items IH]; simpl.
  - split; [done|]. intros (before & after & H & _). by destruct before.
  - case_bool_decide as Hx.
    + split.
      * intros [= <-]. exists [], items. by repeat split.
      * intros ([|y before] & after & H & Ht & Hb).
        -- by injection H as ->.
        -- injection H as -> _. apply Forall_cons in Hb as [Hy _]. done.
    + rewrite IH. split.
      * intros (before & after & -> & Ht & Hb). exists (x :: before), after.
        repeat split; [done|]. by apply Forall_cons.
      * intros ([|y before] & after & H & Ht & Hb).
        -- injection H as -> _. done.
        -- injection H as -> ->. apply Forall_cons in Hb as [_ Hb].
           by exists before, after.
Qed.

(** One run of the callback, seen from the source list and from Todoist:
    it posts the payload of [transform] once, or nothing; and either the
    source list stays as it is and no removal was accepted, or the removal
    of this task was accepted and every task of its id is gone. *)
Lemma processTask_store tok lid task s :
  exists evs gt',
    Sync.processTask env tok lid task s
      = (Normal tt, {| gtasks := gt'; trace := trace s ++ evs |})
    /\ posted evs
       = match Sync.transform task with Some p => [p] | None => [] end
    /\ (gt' = gtasks s
        /\ (forall l t, TasksRemove l t (Normal tt) ∉ evs)
        \/ gt' = filter (fun x => task_id x <> task_id task) (gtasks s)
           /\ TasksRemove lid (task_id task) (Normal tt) ∈ evs
           /\ (forall l t, TasksRemove l t (Normal tt) ∈ evs ->
                 t = task_id task)).
Proof.
  unfold Sync.processTask, Sync.createTodoistTask_, Sync.UrlFetchApp_post,
    Sync.Tasks_remove, try_catch, bind, call, log, ret, emit; simpl.
  destruct (Sync.transform task) as [p|] eqn:Htr; simpl.
  2:{ exists [], (gtasks s). rewrite app_nil_r. split; [by destruct s|].
      split; [done|]. left. split; [done|]. intros l t H. in_inv. }
  destruct (Sync.emailLink task); simpl;
    (destruct (fetch_post env _ p tok) as [resp|e]; simpl;
     [ destruct (getResponseCode resp =? 200)%Z; simpl;
       [ destruct (tasks_remove_error env _ lid (task_id task)); simpl | ]
     | ]);
    rewrite <- !app_assoc; simpl; eexists _, _; (split; [reflexivity|]);
    (split; [reflexivity|]).
  all: first
    [ left; split; [reflexivity|]; intros l' t' H; in_inv; done
    | right; split; [reflexivity|]; split; [in_list|];
      intros l' t' H; in_inv; done ].
Qed.

Lemma posted_app evs1 evs2 : posted (evs1 ++ evs2) = posted evs1 ++ posted evs2.
Proof. apply omap_app. Qed.

(** The batch, seen from the source list: it only loses tasks, and only to
    removals that Google Tasks accepted; and from Todoist: it receives the
    payloads of the titled tasks, in order. *)
Lemma forEach_processTask_store tok lid items s :
  exists evs gt',
    forEach (Sync.processTask env tok lid) items s
      = (Normal tt, {| gtasks := gt'; trace := trace s ++ evs |})
    /\ gt' `sublist_of` gtasks s
    /\ (forall x, x ∈ gtasks s ->
          x ∈ gt' \/ TasksRemove lid (task_id x) (Normal tt) ∈ evs)
    /\ (forall l t, TasksRemove l t (Normal tt) ∈ evs ->
          forall x, x ∈ gt' -> task_id x <> t)
    /\ posted evs = omap Sync.transform items.
Proof.
  revert s. induction items as [|task items IH]; intros s.
  - exists [], (gtasks s). simpl. unfold ret. rewrite app_nil_r.
    split; [by destruct s|]. split; [done|]. split; [by left|].
    split; [|done]. intros l t H. in_inv.
  - simpl. unfold bind.
    destruct (processTask_store tok lid task s)
      as (evs1 & gt1 & -> & Hposted & Hstore).
    destruct (IH {| gtasks := gt1; trace := trace s ++ evs1 |})
      as (evs2 & gt2 & -> & Hsub & Hgone & Hrem & Hpost).
    simpl in *. exists (evs1 ++ evs2), gt2. rewrite app_assoc.
    split; [done|].
    assert (Hsub1 : gt1 `sublist_of` gtasks s).
    { destruct Hstore as [[-> _]|[-> _]]; [done | apply sublist_filter]. }
    split; [by etrans|]. split; [|split].
    + intros x Hx.
      assert (x ∈ gt1 \/ TasksRemove lid (task_id x) (Normal tt) ∈ evs1)
        as [Hx1|Hev].
      { destruct Hstore as [[-> _]|(-> & Hev & _)]; [by left|].
        destruct (decide (task_id x = task_id task)) as [->|Hne]; [by right|].
        left. by apply list_elem_of_filter. }
      * destruct (Hgone x Hx1) as [?|?]; [by left|].
        right. apply elem_of_app. by right.
      * right. apply elem_of_app. by left.
    + intros l t [H|H]%elem_of_app x Hx; [|by apply (Hrem l t H)].
      destruct Hstore as [[_ Hnone]|(-> & _ & Hid)]; [by destruct (Hnone l t)|].
      rewrite (Hid l t H).
      apply (elem_of_sublist _ _ _ Hx) in Hsub.
      by apply list_elem_of_filter in Hsub as [? _].
    + rewrite posted_app, Hposted, Hpost.
      by destruct (Sync.transform task).
Qed.

(** A run either stops before the batch, having changed nothing, or hands
    the whole source list to the callback, with the configured token and the
    id of the first list of the configured name. *)
Lemma sync_cases s :
  (exists evs,
     Sync.syncGoogleTasksToTodoist env s
       = (Normal tt, {| gtasks := gtasks s; trace := trace s ++ evs |})
     /\ forall ev, ev ∈ evs -> ~ mutates ev)
  \/ (exists tok name items l pre,
        sync_configured env tok name
        /\ tasklists_list env (trace s) = Normal (Some items)
        /\ first_titled name items l
        /\ truthy (list_id l) = true
        /\ (forall ev, ev ∈ pre -> ~ mutates ev)
        /\ Sync.syncGoogleTasksToTodoist env s
           = forEach (Sync.processTask env tok (list_id l)) (gtasks s)
               {| gtasks := gtasks s; trace := trace s ++ pre |}).
Proof.
  unfold Sync.syncGoogleTasksToTodoist.
  destruct (getProperty env (lit "TODOIST_API_TOKEN")) as [tok|] eqn:Htok;
    [destruct (getProperty env (lit "GOOGLE_TASK_LIST_NAME")) as [name|] eqn:Hname;
     [destruct (truthy tok) eqn:Htt; [destruct (truthy name) eqn:Hnt|]|]|];
    cbn [andb].
  2-5: left; exists [Log ConsoleError MsgConfigIncomplete];
       (split; [done|]); intros ev Hev Hm; in_inv; done.
  unfold Sync.getTaskListIdByName_, Sync.Tasklists_list, Sync.Tasks_list,
    try_catch, bind, call, log, ret, emit. cbn [gtasks trace].
  destruct (tasklists_list env (trace s)) as [[items|]|e] eqn:Hl;
    cbn [gtasks trace].
  - destruct (find _ items) as [l|] eqn:Hf; cbn [gtasks trace].
    + destruct (truthy (list_id l)) eqn:Hlt; cbn [gtasks trace].
      * destruct (tasks_list_error env _ (list_id l)) as [e|] eqn:He;
          cbn [gtasks trace].
        -- left. eexists [_; _; _; _]. split; [by repeat (rewrite <- app_assoc; cbn [app])|].
           intros ev Hev Hm; in_inv; done.
        -- right. apply find_first_titled in Hf.
           set (F := forEach (Sync.processTask env tok (list_id l))).
           destruct (gtasks s) as [|g gs] eqn:Hg; cbn [gtasks trace].
           ++ exists tok, name, items, l,
                [TasklistsList (Normal (Some items));
                 Log ConsoleLog (MsgFoundList name (list_id l));
                 TasksList (list_id l) (Normal None);
                 Log ConsoleLog MsgNoTasksToSync].
              do 4 (split; [done|]).
              split; [intros ev Hev Hm; in_inv; done|].
              subst F. simpl. unfold ret. by repeat (rewrite <- app_assoc; cbn [app]).
           ++ exists tok, name, items, l,
                [TasklistsList (Normal (Some items));
                 Log ConsoleLog (MsgFoundList name (list_id l));
                 TasksList (list_id l) (Normal (Some (g :: gs)));
                 Log ConsoleLog (MsgFoundToSync (length (g :: gs)))].
              do 4 (split; [done|]).
              split; [intros ev Hev Hm; in_inv; done|].
              repeat rewrite <- app_assoc. cbn [app].
              match goal with |- context [F ?items ?st] =>
                destruct (forEach_processTask env tok (list_id l) items st)
                  as (evs & gt' & Hrun & _)
              end.
              fold F in Hrun. cbn [gtasks trace] in Hrun. rewrite Hrun.
              unfold F in Hrun. by rewrite Hrun.
      * left. eexists [_; _]. split; [by repeat (rewrite <- app_assoc; cbn [app])|].
        intros ev Hev Hm; in_inv; done.
    + left. eexists [_; _]. split; [by repeat (rewrite <- app_assoc; cbn [app])|].
      intros ev Hev Hm; in_inv; done.
  - left. eexists [_; _; _]. split; [by repeat (rewrite <- app_assoc; cbn [app])|].
    intros ev Hev Hm; in_inv; done.
  - left. eexists [_; _; _]. split; [by repeat (rewrite <- app_assoc; cbn [app])|].
    intros ev Hev Hm; in_inv; done.
Qed.

End sync_more.

(** X1: the lookup helper never throws and leaves the source list alone; it
    returns an id exactly when the listing succeeded and holds a list of that
    title, and then the id of the first such list. *)
Theorem getTaskListIdByName_first_match (env : Env) (listName : jsstring)
    (s : State) :
  exists r evs,
    Sync.getTaskListIdByName_ env listName s
      = (Normal r, {| gtasks := gtasks s; trace := trace s ++ evs |})
    /\ (forall ev, ev ∈ evs -> ~ mutates ev)
    /\ (forall id,
          r = Some id
          <-> exists items l,
                tasklists_list env (trace s) = Normal (Some items)
                /\ first_titled listName items l /\ list_id l = id).
Proof.
  unfold Sync.getTaskListIdByName_, Sync.Tasklists_list, try_catch, bind, call,
    log, ret, emit. cbn [gtasks trace].
  destruct (tasklists_list env (trace s)) as [[items|]|e] eqn:Hl;
    cbn [gtasks trace].
  - eexists _, [_]. split; [reflexivity|].
    split; [intros ev Hev Hm; in_inv; done|]. intros id.
    destruct (find _ items) as [l|] eqn:Hf.
    + apply find_first_titled in Hf. split.
      * intros [= <-]. by exists items, l.
      * intros (items' & l' & [= <-] & Hl' & <-).
        apply find_first_titled in Hf, Hl'. congruence.
    + split; [done|]. intros (items' & l' & [= <-] & Hl' & _).
      apply find_first_titled in Hl'. congruence.
  - eexists _, [_; _]. split; [by rewrite <- app_assoc|].
    split; [intros ev Hev Hm; in_inv; done|].
    intros id. split; [done|]. by intros (? & ? & ? & _).
  - eexists _, [_; _]. split; [by rewrite <- app_assoc|].
    split; [intros ev Hev Hm; in_inv; done|].
    intros id. split; [done|]. by intros (? & ? & ? & _).
Qed.

(** X2: the creation helper never throws and makes exactly one call; it hands
    back the response exactly when the call returned with status 200, and
    otherwise writes an error line. *)
Theorem createTodoistTask_contract (env : Env) (payload : TodoistPayload)
    (apiToken : jsstring) (s : State) :
  let out := fetch_post env (trace s) payload apiToken in
  exists r logs,
    Sync.createTodoistTask_ env payload apiToken s
      = (Normal r,
         {| gtasks := gtasks s;
            trace := trace s ++ FetchPost payload apiToken out :: logs |})
    /\ (forall response,
          r = Some response
          <-> out = Normal response /\ getResponseCode response = 200%Z)
    /\ (r = None -> exists m, logs = [Log ConsoleError m])
    /\ (is_Some r -> logs = []).
Proof.
  intros out. subst out.
  unfold Sync.createTodoistTask_, Sync.UrlFetchApp_post, try_catch, bind, call,
    log, ret, emit. cbn [gtasks trace].
  destruct (fetch_post env (trace s) payload apiToken) as [resp|e];
    cbn [gtasks trace].
  - destruct (getResponseCode resp =? 200)%Z eqn:Hc; cbn [gtasks trace].
    + apply Z.eqb_eq in Hc. exists (Some resp), []. split; [done|].
      split; [|split; [done|done]]. intros response. split.
      * by intros [= <-].
      * by intros [[= <-] _].
    + apply Z.eqb_neq in Hc. eexists None, [_].
      split; [by rewrite <- app_assoc|].
      split; [|split; [by eexists | by intros [? ?]]].
      intros response. split; [done|]. by intros [[= <-] ?].
  - eexists None, [_]. split; [by rewrite <- app_assoc|].
    split; [|split; [by eexists | by intros [? ?]]].
    intros response. split; [done|]. by intros [? _].
Qed.


(** X4: a run never adds to the source list nor reorders it, and a task is
    missing afterwards only when a removal of its id was accepted by Google
    Tasks; after an accepted removal no task of that id is left. *)
Theorem source_list_only_loses_removed_tasks (env : Env) (s : State) :
  let run := Sync.syncGoogleTasksToTodoist env s in
  gtasks run.2 `sublist_of` gtasks s
  /\ (forall x, x ∈ gtasks s ->
        x ∈ gtasks run.2
        \/ exists l, TasksRemove l (task_id x) (Normal tt)
                       ∈ events_of (Sync.syncGoogleTasksToTodoist env) s)
  /\ (forall l t,
        TasksRemove l t (Normal tt)
          ∈ events_of (Sync.syncGoogleTasksToTodoist env) s ->
        forall x, x ∈ gtasks run.2 -> task_id x <> t).
Proof.
  intros run. subst run.
  destruct (sync_cases env s)
    as [(evs & Hrun & Hm)
       |(tok & name & items & l & pre & _ & _ & _ & _ & Hpre & Hrun)].
  - rewrite (events_of_eq _ _ _ _ _ Hrun), Hrun. simpl.
    split; [done|]. split; [by left|].
    intros l t H. by destruct (Hm _ H).
  - destruct (forEach_processTask_store env tok (list_id l) (gtasks s)
                {| gtasks := gtasks s; trace := trace s ++ pre |})
      as (evs & gt' & Hfor & Hsub & Hgone & Hrem & _).
    rewrite Hfor in Hrun. simpl in Hrun, Hsub, Hgone, Hrem.
    rewrite <- app_assoc in Hrun.
    rewrite (events_of_eq _ _ _ _ _ Hrun), Hrun. simpl.
    split; [done|]. split.
    + intros x Hx. destruct (Hgone x Hx) as [?|Hev]; [by left|].
      right. exists (list_id l). apply elem_of_app. by right.
    + intros l' t [H|H]%elem_of_app; [by destruct (Hpre _ H)|].
      by apply (Hrem l').
Qed.

(** X5: a run that reaches the batch posts to Todoist the payloads of the
    titled tasks of the source list, each once and in the order of the
    listing, and nothing else. *)
Theorem sync_posts_titled_tasks_in_order (env : Env) (tok lid : jsstring)
    (s : State) :
  ready env tok lid ->
  posted (events_of (Sync.syncGoogleTasksToTodoist env) s)
  = omap Sync.transform (gtasks s).
Proof.
  intros R. destruct (sync_ready env tok lid s R) as (pre & Hpre & Hrun).
  destruct (forEach_processTask_store env tok lid (gtasks s)
              {| gtasks := gtasks s; trace := trace s ++ pre |})
    as (evs & gt' & Hfor & _ & _ & _ & Hposted).
  rewrite Hfor in Hrun. simpl in Hrun. rewrite <- app_assoc in Hrun.
  rewrite (events_of_eq _ _ _ _ _ Hrun), posted_app, Hposted.
  assert (posted pre = []) as ->; [|done].
  clear -Hpre. induction pre as [|ev pre IH]; [done|].
  assert (Hev : ~ mutates ev) by (apply Hpre; by left).
  assert (IH' : posted pre = [])
    by (apply IH; intros ev' Hin; apply Hpre; by right).
  unfold posted in *.
  destruct ev; first [ by destruct Hev | simpl; exact IH' ].
Qed.

Lemma sync_posts_titled_tasks_in_order_witness :
  ready todoist_refuses_b (lit "token") (lit "L1")
  /\ content <$> posted (events_of (Sync.syncGoogleTasksToTodoist todoist_refuses_b)
                           (start (titled_blank :: three_tasks)))
     = [lit "a"; lit "b"; lit "c"].
Proof.
  split; [apply todoist_refuses_b_ready|].
  rewrite (sync_posts_titled_tasks_in_order todoist_refuses_b _ _ _
             todoist_refuses_b_ready).
  reflexivity.
Defined.

(** X6: a run creates nothing in Todoist and removes nothing from Google
    Tasks unless both properties are set and the listing of the task lists
    succeeded and holds a list of the configured name with a non-empty id. *)
Theorem sync_changes_nothing_before_lookup (env : Env) (s : State) (ev : Event) :
  ev ∈ events_of (Sync.syncGoogleTasksToTodoist env) s ->
  mutates ev ->
  exists tok name items l,
    sync_configured env tok name
    /\ tasklists_list env (trace s) = Normal (Some items)
    /\ first_titled name items l
    /\ truthy (list_id l) = true.
Proof.
  intros Hev Hm.
  destruct (sync_cases env s)
    as [(evs & Hrun & Hnone)
       |(tok & name & items & l & pre & ? & ? & ? & ? & _)].
  - rewrite (events_of_eq _ _ _ _ _ Hrun) in Hev. by destruct (Hnone ev).
  - by exists tok, name, items, l.
Qed.

Lemma sync_changes_nothing_before_lookup_witness :
  let ev := FetchPost {| content := lit "a"; description := []; due_date := None |}
                      (lit "token")
                      (Normal {| getResponseCode := 200;
                                 getContentText := lit "ok" |}) in
  (ev ∈ events_of (Sync.syncGoogleTasksToTodoist todoist_refuses_b)
                  (start three_tasks)
   /\ mutates ev)
  /\ exists tok name items l,
       sync_configured todoist_refuses_b tok name
       /\ tasklists_list todoist_refuses_b [] = Normal (Some items)
       /\ first_titled name items l
       /\ truthy (list_id l) = true.
Proof.
  intros ev.
  assert (H : ev ∈ events_of (Sync.syncGoogleTasksToTodoist todoist_refuses_b)
                             (start three_tasks) /\ mutates ev).
  { split; [|exact I].
    let t := eval vm_compute in
       (events_of (Sync.syncGoogleTasksToTodoist todoist_refuses_b)
                  (start three_tasks)) in
    change (events_of (Sync.syncGoogleTasksToTodoist todoist_refuses_b)
                      (start three_tasks)) with t.
    in_list. }
  split; [exact H|]. destruct H as [H1 H2].
  exact (sync_changes_nothing_before_lookup todoist_refuses_b
           (start three_tasks) ev H1 H2).
Defined.

(** X7: when the listing of the tasks throws, the run logs the error and
    ends: nothing is posted and nothing removed. *)
Theorem tasks_listing_failure_aborts (env : Env) (tok name : jsstring)
    (items : list TaskList) (l : TaskList) (e : Exn) (s : State) :
  sync_configured env tok name ->
  tasklists_list env (trace s) = Normal (Some items) ->
  first_titled name items l ->
  truthy (list_id l) = true ->
  tasks_list_error env
    (trace s ++ [TasklistsList (Normal (Some items));
                 Log ConsoleLog (MsgFoundList name (list_id l))])
    (list_id l) = Some e ->
  Sync.syncGoogleTasksToTodoist env s
  = (Normal tt,
     {| gtasks := gtasks s;
        trace := trace s
          ++ [TasklistsList (Normal (Some items));
              Log ConsoleLog (MsgFoundList name (list_id l));
              TasksList (list_id l) (Throw e);
              Log ConsoleError (MsgSyncError e)] |}).
Proof.
  intros (Htok & Htt & Hname & Hnt) Hl Hf%find_first_titled Hlt He.
  unfold Sync.syncGoogleTasksToTodoist. rewrite Htok, Hname, Htt, Hnt.
  cbn [andb].
  unfold Sync.getTaskListIdByName_, Sync.Tasklists_list, Sync.Tasks_list,
    try_catch, bind, call, log, ret, emit. cbn [gtasks trace].
  rewrite Hl. cbn [gtasks trace]. rewrite Hf. cbn [gtasks trace].
  rewrite Hlt. cbn [gtasks trace].
  rewrite <- app_assoc. cbn [app]. rewrite He. cbn [gtasks trace].
  by repeat (rewrite <- app_assoc; cbn [app]).
Qed.

Lemma tasks_listing_failure_aborts_witness :
  let l := {| list_id := lit "L1"; list_title := lit "My Tasks" |} in
  (sync_configured tasks_listing_fails (lit "token") (lit "My Tasks")
   /\ tasklists_list tasks_listing_fails [] = Normal (Some [l])
   /\ first_titled (lit "My Tasks") [l] l
   /\ truthy (list_id l) = true
   /\ tasks_list_error tasks_listing_fails
        ([] ++ [TasklistsList (Normal (Some [l]));
                Log ConsoleLog (MsgFoundList (lit "My Tasks") (list_id l))])
        (list_id l) = Some permission_denied)
  /\ gtasks (Sync.syncGoogleTasksToTodoist tasks_listing_fails
               (start three_tasks)).2 = three_tasks.
Proof.
  intros l.
  assert (H : sync_configured tasks_listing_fails (lit "token") (lit "My Tasks")
   /\ tasklists_list tasks_listing_fails [] = Normal (Some [l])
   /\ first_titled (lit "My Tasks") [l] l
   /\ truthy (list_id l) = true
   /\ tasks_list_error tasks_listing_fails
        ([] ++ [TasklistsList (Normal (Some [l]));
                Log ConsoleLog (MsgFoundList (lit "My Tasks") (list_id l))])
        (list_id l) = Some permission_denied).
  { split; [by repeat split|]. split; [reflexivity|].
    split; [by exists [], []|]. by split. }
  split; [exact H|]. destruct H as (H1 & H2 & H3 & H4 & H5).
  by rewrite (tasks_listing_failure_aborts tasks_listing_fails _ _ _ _ _
                (start three_tasks) H1 H2 H3 H4 H5).
Defined.

(** X8: an empty due string counts as no due value, and a due value of at
    most ten code units is passed on whole, whatever it holds. *)
Theorem short_due_passes_whole (task : GTask) (p : TodoistPayload)
    (due : jsstring) :
  Sync.transform task = Some p ->
  task_due task = Some due ->
  (due = [] -> due_date p = None)
  /\ (due <> [] -> length due <= 10 -> due_date p = Some due).
Proof.
  intros Hp Hdue. apply transform_Some in Hp as (title & _ & _ & ->).
  simpl. rewrite Hdue. split.
  - by intros ->.
  - intros Hne Hlen. destruct due as [|c due]; [done|]. simpl truthy. cbv iota.
    f_equal. unfold substring.
    rewrite Nat.min_0_l, Nat.min_0_l, Nat.max_0_l, Nat.sub_0_r, drop_0.
    apply take_ge. lia.
Qed.

Lemma short_due_passes_whole_witness :
  (Sync.transform short_due
     = Some (Sync.todoistPayload (lit " pay rent ") short_due)
   /\ task_due short_due = Some (lit "tomorrow"))
  /\ due_date (Sync.todoistPayload (lit " pay rent ") short_due)
     = Some (lit "tomorrow").
Proof.
  split; [by split|].
  apply (proj2 (short_due_passes_whole short_due _ (lit "tomorrow")
                  eq_refl eq_refl)).
  - done.
  - vm_compute. lia.
Defined.

(** X9: without a link of type ["email"] (no links at all, an empty list, or
    links of other types only) the description is the trimmed notes, empty
    when there are none. *)
Theorem description_without_email_link (task : GTask) (p : TodoistPayload) :
  Sync.transform task = Some p ->
  (task_links task = None
   \/ exists links, task_links task = Some links
                    /\ Forall (fun l => ~ is_email l) links) ->
  description p = trim (default [] (task_notes task)).
Proof.
  intros Hp Hlinks. apply transform_Some in Hp as (title & _ & _ & ->).
  simpl. f_equal. unfold Sync.description_of.
  assert (Sync.emailLink task = None) as ->; [|done].
  unfold Sync.emailLink. destruct Hlinks as [->|(links & -> & Hl)]; [done|].
  induction Hl as [|l links Hl _ IH]; simpl; [done|].
  by rewrite bool_decide_eq_false_2.
Qed.

Lemma description_without_email_link_witness :
  (Sync.transform short_due
     = Some (Sync.todoistPayload (lit " pay rent ") short_due)
   /\ (task_links short_due = None
       \/ exists links, task_links short_due = Some links
                        /\ Forall (fun l => ~ is_email l) links))
  /\ description (Sync.todoistPayload (lit " pay rent ") short_due)
     = lit "before noon".
Proof.
  assert (H : task_links short_due = None
       \/ exists links, task_links short_due = Some links
                        /\ Forall (fun l => ~ is_email l) links).
  { right. eexists. split; [reflexivity|].
    apply Forall_cons. split; [by vm_compute | by apply Forall_nil]. }
  split; [by split|].
  by rewrite (description_without_email_link short_due _ eq_refl H).
Defined.

(** X10: what every payload satisfies: the content is the title as it stands,
    the description has white space at neither end, and a due date, when
    there is one, is not empty and not longer than ten code units. *)
Theorem payload_invariants (task : GTask) (p : TodoistPayload) :
  Sync.transform task = Some p ->
  task_title task = Some (content p)
  /\ content p <> []
  /\ no_leading_space (description p)
  /\ no_trailing_space (description p)
  /\ (forall d, due_date p = Some d -> d <> [] /\ length d <= 10).
Proof.
  intros Hp. apply transform_Some in Hp as (title & Ht & Htt & ->). simpl.
  split; [done|]. split; [by destruct title|].
  split; [apply trim_no_leading_space|].
  split; [apply trim_no_trailing_space|].
  intros d. destruct (task_due task) as [[|c due]|]; simpl; [done| |done].
  intros [= <-]. split.
  - unfold substring. simpl. done.
  - unfold substring. rewrite length_take. lia.
Qed.

Lemma payload_invariants_witness :
  Sync.transform short_due
    = Some (Sync.todoistPayload (lit " pay rent ") short_due)
  /\ task_title short_due
     = Some (content (Sync.todoistPayload (lit " pay rent ") short_due)).
Proof.
  split; [reflexivity|].
  exact (proj1 (payload_invariants short_due _ eq_refl)).
Defined.

(** ** The report script: cleanup, failures and the temporary spreadsheet *)

Lemma group_keys_nonempty projects tasks m :
  Report.group projects tasks = Normal m ->
  (length (Obj.keys m) =? 0) = false -> tasks <> [].
Proof.
  intros Hm Hk ->. apply Nat.eqb_neq in Hk. apply Hk.
  apply keys_empty_iff. by apply (group_empty_iff projects []).
Qed.

Lemma groupTasks_Throw projectMap tasks acc e :
  Report.groupTasks projectMap tasks acc = Throw e ->
  e = Report.push_is_not_a_function.
Proof.
  revert acc. induction tasks as [|task tasks IH]; intros acc; simpl; [done|].
  destruct (Report.groupTask projectMap acc task) as [acc'|e'] eqn:E.
  - apply IH.
  - intros [= <-]. unfold Report.groupTask in E.
    destruct (Obj.get acc _); by simplify_eq.
Qed.

Ltac body_solve :=
  first
    [ done
    | reflexivity
    | in_list
    | eassumption
    | eapply group_keys_nonempty; eassumption
    | eapply groupTasks_Throw; eassumption
    | split; body_solve
    | eexists; body_solve
    | left; body_solve
    | right; body_solve ].

Section report_body.

Context (env : Env).

Lemma deleteYesterdaysReport_calls folderId s :
  exists evs,
    Report.deleteYesterdaysReport env folderId s
      = (Normal tt, {| gtasks := gtasks s; trace := trace s ++ evs |})
    /\ (forall fld name files,
          GetFilesByName fld name (Normal files) ∈ evs ->
          trashed evs = file_id <$> take 1 files)
    /\ ((forall fld name files,
           GetFilesByName fld name (Normal files) ∉ evs) ->
        trashed evs = [])
    /\ (forall c m, Log c m ∈ evs -> c = LoggerLog /\ cleanup_line m)
    /\ (forall f out, GetFolderById f out ∈ evs -> f = folderId)
    /\ (forall fld name out, GetFilesByName fld name out ∈ evs ->
          GetFolderById folderId (Normal fld) ∈ evs)
    /\ (forall ev, ev ∈ evs -> cleanup_event ev).
Proof.
  unfold Report.deleteYesterdaysReport, Report.new_Date, try_catch, bind,
    call, log, ret, emit; simpl.
  destruct (drive_getFolderById env (trace s) folderId) as [folder|e] eqn:Hf;
    simpl;
    [ destruct (drive_getFilesByName env _ folder _) as [[|file files]|e] eqn:Hn;
      simpl;
      [ | destruct (drive_setTrashed env _ (file_id file)) as [[]|e] eqn:Ht;
          simpl | ] | ];
    repeat rewrite <- app_assoc; simpl; eexists; (split; [reflexivity|]).
  all: split; [intros fld name fs H; in_inv; reflexivity|].
  all: split; [intros Hno; first [ reflexivity
                                 | exfalso; eapply Hno; in_list ]|].
  all: split; [intros c m H; in_inv; by split|].
  all: split; [intros f out H; in_inv; done|].
  all: split; [intros fld name out H; in_inv; in_list|].
  all: intros ev H; in_inv; done.
Qed.

Lemma report_body_shape tok folderId s :
  report_configured env tok folderId ->
  exists cleanup body,
    events_of (Report.deleteYesterdaysReport env folderId)
              (emit (Log LoggerLog MsgStarting) s) = cleanup
    /\ Report.createTodoistReport env s
       = (Normal tt,
          {| gtasks := gtasks s;
             trace := trace s ++ Log LoggerLog MsgStarting :: cleanup ++ body |})
    /\ report_body_facts tok folderId body.
Proof.
  intros (Htok & Htt & Hfolder & Hft).
  destruct (deleteYesterdaysReport_facts env folderId
              (emit (Log LoggerLog MsgStarting) s))
    as (evs1 & Hclean & _).
  exists evs1. rewrite (events_of_eq _ _ _ _ _ Hclean).
  unfold Report.createTodoistReport. rewrite Htok, Hfolder, Htt, Hft.
  cbn [andb]. unfold try_catch, bind, log. rewrite Hclean.
  unfold emit. cbn [gtasks trace].
  unfold Report.getUncompletedTasksByProject, Report.createAndPopulateSheet,
    Report.exportSheetAsPdf, Report.new_Date, Report.lift, try_catch, bind,
    call, log, throw, ret, emit.
  split_paths.
  all: eexists; (split; [reflexivity|]);
    (split; [by repeat (rewrite <- app_assoc; cbn [app])|]).
  all: repeat match goal with H : context [trace _] |- _ => clear H end.
  all: cbn [getId getName].
  all: repeat match goal with
         |- context [Report.sheetName ?d] =>
           let n := fresh "name" in
           set (n := Report.sheetName d); clearbody n
       end.
  all: repeat match goal with u : () |- _ => destruct u end.
  all: split.
  all: set (pdf := lit ".pdf"); clearbody pdf.
  all: try (unfold not; intros; in_inv; cbn [raised creates_document] in *;
            simplify_eq;
            try done).
  all: try solve [body_solve].
  all: try (by eapply group_keys_nonempty).
Qed.

Lemma report_events tok folderId s :
  report_configured env tok folderId ->
  exists cleanup body,
    events_of (Report.deleteYesterdaysReport env folderId)
              (emit (Log LoggerLog MsgStarting) s) = cleanup
    /\ events_of (Report.createTodoistReport env) s
       = Log LoggerLog MsgStarting :: cleanup ++ body
    /\ (forall c m, Log c m ∈ cleanup -> cleanup_line m)
    /\ (forall ev, ev ∈ cleanup -> cleanup_event ev)
    /\ (forall f out, GetFolderById f out ∈ cleanup -> f = folderId)
    /\ report_body_facts tok folderId body.
Proof.
  intros Hconf.
  destruct (report_body_shape tok folderId s Hconf)
    as (cleanup & body & Hc & Hrun & Hbody).
  exists cleanup, body. split; [done|].
  split; [by rewrite (events_of_eq _ _ _ _ _ Hrun)|].
  destruct (deleteYesterdaysReport_calls folderId
              (emit (Log LoggerLog MsgStarting) s))
    as (evs1 & Hclean & _ & _ & Hlog & Hfld & _ & Hev).
  rewrite (events_of_eq _ _ _ _ _ Hclean) in Hc. subst cleanup.
  split; [intros c m H; by destruct (Hlog c m H)|]. done.
Qed.

End report_body.

Lemma report_succeeds_configured :
  report_configured report_succeeds (lit "token") (lit "folder").
Proof. by repeat split. Qed.

Lemma folder_missing_configured :
  report_configured folder_missing (lit "token") (lit "folder").
Proof. by repeat split. Qed.



(** X13: in a configured run, the first service call that throws after the
    cleanup is the last service call of the run: the error and its stack are
    logged, and the stack line ends the run. An error line stands for the
    one call that threw, or for the grouping that threw the error of [push];
    and the hint about the folder id is written only for the configured id,
    after a call threw an error whose message contains [Folder not found]. *)
Theorem report_stops_at_first_failure (env : Env) (tok folderId : jsstring)
    (s : State) :
  report_configured env tok folderId ->
  exists cleanup body,
    events_of (Report.deleteYesterdaysReport env folderId)
              (emit (Log LoggerLog MsgStarting) s) = cleanup
    /\ events_of (Report.createTodoistReport env) s
       = Log LoggerLog MsgStarting :: cleanup ++ body
    /\ (forall ev e, ev ∈ body -> raised ev = Some e ->
          last (calls body) = Some ev
          /\ Log LoggerLog (MsgErrorOccurred e) ∈ body
          /\ last body = Some (Log LoggerLog (MsgStack e)))
    /\ (forall c e, Log c (MsgErrorOccurred e) ∈ body ->
          omap raised body = [e]
          \/ (omap raised body = []
              /\ e = Report.push_is_not_a_function
              /\ exists projects tasks,
                   FetchProjects tok (Normal projects) ∈ body
                   /\ FetchTasks tok (Normal tasks) ∈ body
                   /\ Report.group projects tasks = Throw e))
    /\ (forall c f, Log c (MsgFolderNotFound f) ∈ body ->
          f = folderId
          /\ exists e, omap raised body = [e]
               /\ includes (lit "Folder not found") (message e) = true).
Proof.
  intros Hconf.
  destruct (report_events env tok folderId s Hconf)
    as (cleanup & body & Hc & Hevs & _ & _ & _ & F).
  exists cleanup, body. split; [done|]. split; [done|].
  split; [apply (failure_last _ _ _ F)|].
  split; [apply (error_logged _ _ _ F) | apply (hint_logged _ _ _ F)].
Qed.

Lemma report_stops_at_first_failure_witness :
  exists cleanup body,
    events_of (Report.createTodoistReport folder_missing) (start [])
      = Log LoggerLog MsgStarting :: cleanup ++ body
    /\ omap raised body = [folder_not_found]
    /\ Log LoggerLog (MsgErrorOccurred folder_not_found) ∈ body
    /\ last body = Some (Log LoggerLog (MsgStack folder_not_found)).
Proof.
  destruct (report_stops_at_first_failure folder_missing (lit "token")
              (lit "folder") (start []) folder_missing_configured)
    as (cleanup & body & Hc & Hevs & Hfail & _).
  exists cleanup, body. split; [done|].
  revert Hc Hevs.
  let t := eval vm_compute in
    (events_of (Report.deleteYesterdaysReport folder_missing (lit "folder"))
               (emit (Log LoggerLog MsgStarting) (start []))) in
  change (events_of (Report.deleteYesterdaysReport folder_missing (lit "folder"))
               (emit (Log LoggerLog MsgStarting) (start []))) with t.
  let t := eval vm_compute in
    (events_of (Report.createTodoistReport folder_missing) (start [])) in
  change (events_of (Report.createTodoistReport folder_missing) (start []))
    with t.
  intros <- [= <-]. split; [reflexivity|].
  refine (proj2 (Hfail (GetFolderById (lit "folder") (Throw folder_not_found))
                   folder_not_found _ eq_refl)).
  in_list.
Defined.


Lemma in_body (ev first : Event) (cleanup body : list Event) :
  ev ∈ body -> ev ∈ first :: cleanup ++ body.
Proof. intros H. apply list_elem_of_further, elem_of_app. by right. Qed.

(** X14: in a configured run, what the spreadsheet is filled with is the
    grouping of the tasks Todoist answered by the projects it answered, both
    fetched with the configured token; the tasks are not none, and the
    spreadsheet is the one the run created. *)
Theorem sheet_holds_grouping_of_fetched_tasks (env : Env)
    (tok folderId : jsstring) (s : State) :
  report_configured env tok folderId ->
  forall id m out,
    SheetPopulate id m out ∈ events_of (Report.createTodoistReport env) s ->
    exists projects tasks name,
      FetchProjects tok (Normal projects)
        ∈ events_of (Report.createTodoistReport env) s
      /\ FetchTasks tok (Normal tasks)
           ∈ events_of (Report.createTodoistReport env) s
      /\ Report.group projects tasks = Normal m
      /\ tasks <> []
      /\ SpreadsheetCreate name (Normal id)
           ∈ events_of (Report.createTodoistReport env) s.
Proof.
  intros Hconf id m out.
  destruct (report_events env tok folderId s Hconf)
    as (cleanup & body & _ & -> & _ & Hev & _ & F).
  intros [?|[Hin|Hin]%elem_of_app]%elem_of_cons;
    [done | by destruct (Hev _ Hin) |].
  destruct (populate_is_grouping _ _ _ F id m out Hin)
    as (projects & tasks & name & Hp & Ht & Hg & Hne & Hc).
  exists projects, tasks, name.
  repeat split; try (by apply in_body); done.
Qed.

Lemma sheet_holds_grouping_of_fetched_tasks_witness :
  exists projects tasks name,
    FetchProjects (lit "token") (Normal projects)
      ∈ events_of (Report.createTodoistReport report_succeeds) (start [])
    /\ FetchTasks (lit "token") (Normal tasks)
         ∈ events_of (Report.createTodoistReport report_succeeds) (start [])
    /\ Report.group projects tasks
       = Normal
           (<[lit "Errands" :=
                [ {| row_content := lit "Buy milk";
                     row_due := lit "No due date" |} ]]>
              (<[lit "Inbox" :=
                   [ {| row_content := [];
                        row_due := lit "No due date" |} ]]> ∅))
    /\ tasks <> []
    /\ SpreadsheetCreate name (Normal (lit "sheet"))
         ∈ events_of (Report.createTodoistReport report_succeeds) (start []).
Proof.
  apply (sheet_holds_grouping_of_fetched_tasks report_succeeds (lit "token")
           (lit "folder") (start []) report_succeeds_configured
           (lit "sheet") _ (Normal tt)).
  let t := eval vm_compute in
    (events_of (Report.createTodoistReport report_succeeds) (start [])) in
  change (events_of (Report.createTodoistReport report_succeeds) (start []))
    with t.
  in_list.
Defined.

(** X15: in a configured run, after the cleanup, a file is trashed only if it is
    the spreadsheet the run created and its export to a PDF of the
    spreadsheet's name succeeded; and after every successful export the
    spreadsheet is handed to the trash. A spreadsheet whose export fails
    stays in Drive. *)
Theorem spreadsheet_trashed_iff_exported (env : Env) (tok folderId : jsstring)
    (s : State) :
  report_configured env tok folderId ->
  exists cleanup body,
    events_of (Report.deleteYesterdaysReport env folderId)
              (emit (Log LoggerLog MsgStarting) s) = cleanup
    /\ events_of (Report.createTodoistReport env) s
       = Log LoggerLog MsgStarting :: cleanup ++ body
    /\ (forall fid out, SetTrashed fid out ∈ body ->
          exists name fld f,
            SpreadsheetCreate name (Normal fid) ∈ body
            /\ CreateFile fld (name ++ lit ".pdf") (Normal f) ∈ body)
    /\ (forall fld name f, CreateFile fld name (Normal f) ∈ body ->
          exists sheet fid out,
            name = sheet ++ lit ".pdf"
            /\ SpreadsheetCreate sheet (Normal fid) ∈ body
            /\ SetTrashed fid out ∈ body)
    /\ (forall fld name out, CreateFile fld name out ∈ body ->
          exists id m,
            SheetPopulate id m (Normal tt) ∈ body
            /\ GetBlob id (Normal tt) ∈ body
            /\ GetFolderById folderId (Normal fld) ∈ body).
Proof.
  intros Hconf.
  destruct (report_events env tok folderId s Hconf)
    as (cleanup & body & Hc & Hevs & _ & _ & _ & F).
  exists cleanup, body. split; [done|]. split; [done|].
  split; [apply (trash_after_export _ _ _ F)|].
  split; [apply (export_then_trash _ _ _ F)|].
  apply (export_of_populated _ _ _ F).
Qed.

Lemma spreadsheet_trashed_iff_exported_witness :
  exists cleanup body,
    events_of (Report.deleteYesterdaysReport folder_missing (lit "folder"))
              (emit (Log LoggerLog MsgStarting) (start [])) = cleanup
    /\ events_of (Report.createTodoistReport folder_missing) (start [])
       = Log LoggerLog MsgStarting :: cleanup ++ body
    /\ SpreadsheetCreate (lit "Todoist Report - 3-1-2024")
                         (Normal (lit "sheet")) ∈ body
    /\ forall out, SetTrashed (lit "sheet") out ∉ body.
Proof.
  destruct (spreadsheet_trashed_iff_exported folder_missing (lit "token")
              (lit "folder") (start []) folder_missing_configured)
    as (cleanup & body & Hc & Hevs & Htrash & _).
  exists cleanup, body. split; [done|]. split; [done|].
  revert Hc Hevs.
  let t := eval vm_compute in
    (events_of (Report.deleteYesterdaysReport folder_missing (lit "folder"))
               (emit (Log LoggerLog MsgStarting) (start []))) in
  change (events_of (Report.deleteYesterdaysReport folder_missing (lit "folder"))
               (emit (Log LoggerLog MsgStarting) (start []))) with t.
  let t := eval vm_compute in
    (events_of (Report.createTodoistReport folder_missing) (start [])) in
  change (events_of (Report.createTodoistReport folder_missing) (start []))
    with t.
  intros <- [= <-]. split; [in_list|].
  intros out Hin. destruct (Htrash _ _ Hin) as (name & fld & f & _ & H).
  in_inv.
Defined.

(** X16: a configured run ends with one of three log lines: that it aborts for
    want of tasks, that the report was created, or the stack of the error it
    caught. It reports success exactly when the trashing of the temporary
    spreadsheet succeeded; no call after the cleanup has then thrown and no
    error is logged. *)
Theorem report_closing_line (env : Env) (tok folderId : jsstring) (s : State) :
  report_configured env tok folderId ->
  exists cleanup body,
    events_of (Report.deleteYesterdaysReport env folderId)
              (emit (Log LoggerLog MsgStarting) s) = cleanup
    /\ events_of (Report.createTodoistReport env) s
       = Log LoggerLog MsgStarting :: cleanup ++ body
    /\ (exists m,
          last (events_of (Report.createTodoistReport env) s)
            = Some (Log LoggerLog m)
          /\ closing_line m)
    /\ (Log LoggerLog MsgReportCreated
          ∈ events_of (Report.createTodoistReport env) s
        <-> exists fid, SetTrashed fid (Normal tt) ∈ body)
    /\ (Log LoggerLog MsgReportCreated
          ∈ events_of (Report.createTodoistReport env) s ->
        omap raised body = []
        /\ forall c e, Log c (MsgErrorOccurred e)
                         ∉ events_of (Report.createTodoistReport env) s).
Proof.
  intros Hconf.
  destruct (report_events env tok folderId s Hconf)
    as (cleanup & body & Hc & Hevs & Hlog & _ & _ & F).
  exists cleanup, body. split; [done|]. split; [done|]. rewrite Hevs.
  assert (Hbody : forall c m,
            m <> MsgStarting -> ~ cleanup_line m ->
            Log c m ∈ Log LoggerLog MsgStarting :: cleanup ++ body ->
            Log c m ∈ body).
  { intros c m Hs Hm [[= -> ->]|[Hin|Hin]%elem_of_app]%elem_of_cons;
      [done | destruct Hm; apply (Hlog _ _ Hin) | done]. }
  split; [|split].
  - destruct (ending _ _ _ F) as (m & Hlast & Hm). exists m. split; [|done].
    rewrite last_cons, last_app, Hlast. done.
  - split.
    + intros Hin%Hbody; [|done|by intros []].
      apply (success_logged _ _ _ F _ Hin).
    + intros [fid Hin]. by apply in_body, (trashed_logged _ _ _ F fid).
  - intros Hin%Hbody; [|done|by intros []]. split.
    + apply (success_logged _ _ _ F _ Hin).
    + intros c e Herr%Hbody; [|done|by intros []].
      by apply (success_no_error _ _ _ F _ c e Hin).
Qed.

Lemma report_closing_line_witness :
  Log LoggerLog MsgReportCreated
    ∈ events_of (Report.createTodoistReport report_succeeds) (start [])
  /\ last (events_of (Report.createTodoistReport report_succeeds) (start []))
     = Some (Log LoggerLog MsgReportCreated)
  /\ forall c e,
       Log c (MsgErrorOccurred e)
         ∉ events_of (Report.createTodoistReport report_succeeds) (start []).
Proof.
  destruct (report_closing_line report_succeeds (lit "token") (lit "folder")
              (start []) report_succeeds_configured)
    as (cleanup & body & _ & _ & _ & _ & Hok).
  assert (Hin : Log LoggerLog MsgReportCreated
            ∈ events_of (Report.createTodoistReport report_succeeds) (start [])).
  { let t := eval vm_compute in
      (events_of (Report.createTodoistReport report_succeeds) (start [])) in
    change (events_of (Report.createTodoistReport report_succeeds) (start []))
      with t.
    in_list. }
  split; [exact Hin|]. split; [reflexivity|]. exact (proj2 (Hok Hin)).
Defined.

(** X17: a configured run calls only Todoist's two listings, Drive and the
    spreadsheet service: every fetch carries the configured token, every
    folder lookup asks for the configured folder, and the Tasks service and
    Todoist's creation endpoint are never called. The tasks are fetched only
    after the projects arrived, and a document is created only after tasks
    arrived that the grouping accepted. *)
Theorem report_uses_configured_values (env : Env) (tok folderId : jsstring)
    (s : State) :
  report_configured env tok folderId ->
  (forall ev, ev ∈ events_of (Report.createTodoistReport env) s ->
              report_call tok folderId ev)
  /\ (forall t out,
        FetchTasks t out ∈ events_of (Report.createTodoistReport env) s ->
        exists projects,
          FetchProjects tok (Normal projects)
            ∈ events_of (Report.createTodoistReport env) s)
  /\ (forall ev,
        ev ∈ events_of (Report.createTodoistReport env) s ->
        creates_document ev ->
        exists projects tasks m,
          FetchProjects tok (Normal projects)
            ∈ events_of (Report.createTodoistReport env) s
          /\ FetchTasks tok (Normal tasks)
               ∈ events_of (Report.createTodoistReport env) s
          /\ tasks <> []
          /\ Report.group projects tasks = Normal m).
Proof.
  intros Hconf.
  destruct (report_events env tok folderId s Hconf)
    as (cleanup & body & _ & -> & _ & Hev & Hfld & F).
  split; [|split].
  - intros ev [->|[Hin|Hin]%elem_of_app]%elem_of_cons; [done| |].
    + specialize (Hev _ Hin). destruct ev; try done. by apply (Hfld _ out).
    + by apply (configured_values _ _ _ F).
  - intros t out [?|[Hin|Hin]%elem_of_app]%elem_of_cons;
      [done | by destruct (Hev _ Hin) |].
    destruct (tasks_after_projects _ _ _ F _ _ Hin) as [projects Hp].
    exists projects. by apply in_body.
  - intros ev [->|[Hin|Hin]%elem_of_app]%elem_of_cons Hd;
      [done | by destruct ev; destruct (Hev _ Hin) |].
    destruct (documents_after_tasks _ _ _ F _ Hin Hd)
      as (projects & tasks & m & Hp & Ht & Hne & Hg).
    exists projects, tasks, m. repeat split; try (by apply in_body); done.
Qed.

Lemma report_uses_configured_values_witness :
  report_configured report_succeeds (lit "token") (lit "folder")
  /\ forall ev,
       ev ∈ events_of (Report.createTodoistReport report_succeeds) (start []) ->
       report_call (lit "token") (lit "folder") ev.
Proof.
  split; [exact report_succeeds_configured|].
  exact (proj1 (report_uses_configured_values report_succeeds (lit "token")
                  (lit "folder") (start []) report_succeeds_configured)).
Defined.

(** X18: the export either completes, and then it has looked up the folder,
    taken the blob of the spreadsheet and created the file named after the
    spreadsheet with [.pdf] appended, in this order; or it throws what the
    first failing call threw, having made no call after it and created no
    file, and it has logged the hint about the folder id exactly when the
    message of that error contains [Folder not found]. *)
Theorem exportSheetAsPdf_contract (env : Env) (spreadsheet : Spreadsheet)
    (folderId : jsstring) (s : State) :
  exists r evs,
    Report.exportSheetAsPdf env spreadsheet folderId s
      = (r, {| gtasks := gtasks s; trace := trace s ++ evs |})
    /\ (r = Normal tt ->
        exists fld f,
          evs = [ Log LoggerLog MsgExporting;
                  GetFolderById folderId (Normal fld);
                  GetBlob (getId spreadsheet) (Normal tt);
                  CreateFile fld (getName spreadsheet ++ lit ".pdf") (Normal f);
                  Log LoggerLog (MsgPdfCreated (file_name f) (folder_name fld)) ])
    /\ (forall e, r = Throw e ->
          (exists ev, last (calls evs) = Some ev /\ raised ev = Some e)
          /\ omap raised evs = [e]
          /\ (forall fld name f, CreateFile fld name (Normal f) ∉ evs)
          /\ (Log LoggerLog (MsgFolderNotFound folderId) ∈ evs
              <-> includes (lit "Folder not found") (message e) = true)).
Proof.
  unfold Report.exportSheetAsPdf, try_catch, bind, call, log, ret, throw, emit.
  cbn [gtasks trace].
  destruct (drive_getFolderById env _ folderId) as [fld|e]; cbn [gtasks trace];
    [destruct (spreadsheet_getBlob env _ _) as [[]|e]; cbn [gtasks trace];
     [destruct (drive_createFile env _ fld _) as [f|e]; cbn [gtasks trace]|]|].
  all: try destruct (includes _ (message e)) eqn:Hinc; cbn [gtasks trace].
  all: eexists _, _; (split; [by repeat (rewrite <- app_assoc; cbn [app])|]).
  all: split; [first [done | intros _; by eexists _, _]|].
  all: intros e' [= <-]; try done.
  all: split; [by eexists|]; split; [done|].
  all: split; [intros ??? H; in_inv|].
  all: rewrite Hinc; split; [first [done | intros H; in_inv] | first [done | intros _; in_list]].
Qed.

(** ** The grouping and the names of the projects *)

Lemma plain_key_dec k : {plain_key k} + {~ plain_key k}.
Proof.
  unfold plain_key.
  destruct (decide (k ∈ Obj.prototype_members)); [right | left]; tauto.
Qed.

(** X19: the grouping throws exactly when the project name of some task is the
    name of a property of [Object.prototype], and what it throws is the
    [TypeError] of the call of [push]; otherwise it returns. *)
Theorem grouping_throws_iff (projects : list Project) (tasks : list TodoistTask) :
  (forall e,
     Report.group projects tasks = Throw e
     <-> e = Report.push_is_not_a_function
         /\ Exists (fun task =>
                      ~ plain_key (Report.projectName_of
                                     (Report.projectMap_of projects) task))
                   tasks)
  /\ ((exists m, Report.group projects tasks = Normal m)
      <-> Forall (fun task =>
                    plain_key (Report.projectName_of
                                 (Report.projectMap_of projects) task))
                 tasks).
Proof.
  assert (Hok : (exists m, Report.group projects tasks = Normal m)
      <-> Forall (fun task =>
                    plain_key (Report.projectName_of
                                 (Report.projectMap_of projects) task))
                 tasks).
  { split.
    - intros [m Hm]. apply (groupTasks_Normal_plain _ _ ∅ m Hm).
      intros k [v Hv]. by rewrite lookup_empty in Hv.
    - intros H. destruct (group_plain projects tasks H) as (m & Hm & _).
      by exists m. }
  split; [|done]. intros e. split.
  - intros He. split; [by apply (groupTasks_Throw _ _ _ _ He)|].
    destruct (Forall_Exists_dec
                (fun task => plain_key (Report.projectName_of
                               (Report.projectMap_of projects) task))
                (fun task => ~ plain_key (Report.projectName_of
                               (Report.projectMap_of projects) task))
                (fun task => plain_key_dec _) tasks) as [Hall|Hex]; [|done].
    apply Hok in Hall as [m Hm]. by rewrite Hm in He.
  - intros [-> Hex].
    destruct (Report.group projects tasks) as [m|e] eqn:Hg.
    + exfalso. revert Hex. apply Forall_not_Exists.
      assert (Hall : Forall (fun task => plain_key (Report.projectName_of
                               (Report.projectMap_of projects) task)) tasks)
        by (apply Hok; by exists m).
      eapply Forall_impl; [exact Hall|]. intros task Hp Hn. by apply Hn.
    + f_equal. by apply (groupTasks_Throw _ _ _ _ Hg).
Qed.

Section project_map.

Implicit Types (projectMap : gmap jsstring jsstring) (k : jsstring).

Lemma projectMap_fold_last projects projectMap k :
  k <> lit "__proto__" ->
  foldl (fun projectMap project =>
           Obj.set projectMap (project_id_of project) (project_name project))
        projectMap projects !! k
  = match last (filter (fun p => project_id_of p = k) projects) with
    | Some p => Some (project_name p)
    | None => projectMap !! k
    end.
Proof.
  intros Hk. revert projectMap.
  induction projects as [|p projects IH]; intros projectMap; simpl; [done|].
  rewrite IH, filter_cons.
  destruct (decide (project_id_of p = k)) as [<-|Hne].
  - rewrite last_cons. destruct (last (filter _ projects)); [done|].
    unfold Obj.set. rewrite bool_decide_eq_false_2 by done.
    by rewrite lookup_insert_eq.
  - destruct (last (filter _ projects)); [done|]. by apply set_lookup_ne.
Qed.

Lemma projectMap_fold_proto projects projectMap :
  foldl (fun projectMap project =>
           Obj.set projectMap (project_id_of project) (project_name project))
        projectMap projects !! lit "__proto__"
  = projectMap !! lit "__proto__".
Proof.
  revert projectMap.
  induction projects as [|p projects IH]; intros projectMap; simpl; [done|].
  rewrite IH. unfold Obj.set. case_bool_decide as E; [done|].
  by rewrite lookup_insert_ne.
Qed.

End project_map.

(** X20: of several projects with the same id the last one names the id, an id
    no project bears has no entry, and [__proto__] never gets one. A task is
    filed under the name its project id has in the map; under ["Inbox"] when
    that name is empty; and under the source text of the inherited member,
    which is no property of the prototype, when its project id has no entry
    but names a property of [Object.prototype]. *)
Theorem project_name_resolution (projects : list Project) :
  (forall k, k <> lit "__proto__" ->
     Report.projectMap_of projects !! k
     = project_name <$> last (filter (fun p => project_id_of p = k) projects))
  /\ Report.projectMap_of projects !! lit "__proto__" = None
  /\ (forall task name,
        Report.projectMap_of projects !! todoist_project_id task = Some name ->
        Report.projectName_of (Report.projectMap_of projects) task
        = if truthy name then name else lit "Inbox")
  /\ (forall task,
        Report.projectMap_of projects !! todoist_project_id task = None ->
        ~ plain_key (todoist_project_id task) ->
        Report.projectName_of (Report.projectMap_of projects) task
          = Obj.member_toString (todoist_project_id task)
        /\ plain_key (Report.projectName_of (Report.projectMap_of projects)
                        task)).
Proof.
  split; [|split; [|split]].
  - intros k Hk. unfold Report.projectMap_of.
    rewrite (projectMap_fold_last _ _ _ Hk), lookup_empty.
    by destruct (last _).
  - unfold Report.projectMap_of. by rewrite projectMap_fold_proto, lookup_empty.
  - intros task name H. unfold Report.projectName_of, Obj.get. by rewrite H.
  - intros task H Hk. unfold Report.projectName_of, Obj.get. rewrite H.
    assert (Hin : todoist_project_id task ∈ Obj.prototype_members).
    { unfold plain_key in Hk.
      by destruct (decide (todoist_project_id task ∈ Obj.prototype_members)). }
    rewrite bool_decide_eq_true_2 by done. split; [done|].
    revert Hin. generalize (todoist_project_id task). intros k Hin.
    unfold Obj.prototype_members in Hin. simpl in Hin.
    in_inv; by apply (bool_decide_unpack _).
Qed.

(** X21: a grouping that returns holds, for every name, the rows of the tasks of
    that name in the order of the tasks, and no group is empty; so every
    task has its row in exactly the group of its project name, and the
    names of the groups are those of the tasks. *)
Theorem grouping_files_each_task_under_its_name (projects : list Project)
    (tasks : list TodoistTask) (m : gmap jsstring (list TaskRow)) :
  Report.group projects tasks = Normal m ->
  (forall k rows,
     m !! k = Some rows
     <-> rows = rows_for (Report.projectMap_of projects) k tasks
         /\ rows <> [])
  /\ (forall k,
        is_Some (m !! k)
        <-> exists task,
              task ∈ tasks
              /\ Report.projectName_of (Report.projectMap_of projects) task = k)
  /\ (forall k, is_Some (m !! k) -> plain_key k).
Proof.
  intros Hm. pose proof (group_Normal _ _ _ Hm) as Hk.
  assert (H1 : forall k rows,
     m !! k = Some rows
     <-> rows = rows_for (Report.projectMap_of projects) k tasks
         /\ rows <> []).
  { intros k rows. rewrite Hk.
    destruct (rows_for _ k tasks) as [|row rows'] eqn:E.
    - split; [done | by intros [-> ?]].
    - split; [by intros [= <-] | by intros [-> _]]. }
  assert (H2 : forall k,
        is_Some (m !! k)
        <-> exists task,
              task ∈ tasks
              /\ Report.projectName_of (Report.projectMap_of projects) task = k).
  { intros k. split.
    - intros [rows [-> Hne]%H1]. unfold rows_for in Hne.
      destruct (filter _ tasks) as [|task l] eqn:E; [done|].
      assert (Hin : task ∈ filter (fun task => Report.projectName_of
                      (Report.projectMap_of projects) task = k) tasks)
        by (rewrite E; apply list_elem_of_here).
      apply list_elem_of_filter in Hin as [? ?]. by exists task.
    - intros (task & Hin & <-).
      pose proof (row_in_rows_for (Report.projectMap_of projects) _ _ Hin) as Hr.
      eexists. apply H1. split; [done|]. intros E. rewrite E in Hr.
      by apply elem_of_nil in Hr. }
  split; [done|]. split; [done|].
  intros k (task & Hin & <-)%H2.
  pose proof (groupTasks_Normal_plain _ _ ∅ m Hm) as Hall.
  refine (proj1 (Forall_forall _ _) (Hall _) task Hin).
  intros k [v Hv]. by rewrite lookup_empty in Hv.
Qed.

Lemma grouping_files_each_task_under_its_name_witness :
  exists m,
    Report.group errands [buy_milk; no_content; buy_milk] = Normal m
    /\ m !! lit "Errands"
       = Some [Report.row_of buy_milk; Report.row_of buy_milk].
Proof.
  eexists. split; [reflexivity|].
  apply (proj1 (grouping_files_each_task_under_its_name errands
                  [buy_milk; no_content; buy_milk] _ eq_refl)).
  split; [reflexivity | done].
Defined.

(** ** The calendar *)

Section calendar.





End calendar.



(** ** The rows of the sheet *)

Example array_index_examples :
  Sheet.array_index <$> [lit "0"; lit "10"; lit "007"; lit "4294967294";
                         lit "4294967295"; lit "-1"; lit "Inbox"; []]
  = [Some 0%N; Some 10%N; None; Some 4294967294%N; None; None; None; None].
Proof. reflexivity. Qed.

Example first_seen_example :
  first_seen [lit "b"; lit "a"; lit "b"; lit "c"; lit "a"]
  = [lit "b"; lit "a"; lit "c"].
Proof. reflexivity. Qed.

Example numbered_sections_come_first :
  match Sheet.group numbered_projects
          [task_in "a" "w1"; task_in "b" "x"; task_in "zz" "i"; task_in "c" "y";
           task_in "a" "w2"] with
  | Normal o =>
      o.*1 = [lit "Work"; lit "2024"; lit "Inbox"; lit "10"]
      /\ (Sheet.forin o).*1 = [lit "10"; lit "2024"; lit "Work"; lit "Inbox"]
  | Throw _ => False
  end.
Proof. split; reflexivity. Qed.

Section sheet_facts.

Implicit Types (projectMap : gmap jsstring jsstring) (k : jsstring)
  (o acc : list (jsstring * list TaskRow)).

Lemma own_cons {V} (k' : jsstring) (v : V) (o : list (jsstring * V)) k :
  Sheet.own ((k', v) :: o) k
  = if bool_decide (k' = k) then Some v else Sheet.own o k.
Proof. unfold Sheet.own. simpl. by case_bool_decide. Qed.

Lemma own_list_to_map {V} (o : list (jsstring * V)) k :
  Sheet.own o k = (list_to_map o : gmap jsstring V) !! k.
Proof.
  induction o as [|[k' v] o IH]; [done|].
  rewrite own_cons, list_to_map_cons. case_bool_decide as E.
  - subst. by rewrite lookup_insert_eq.
  - by rewrite lookup_insert_ne.
Qed.

Lemma own_None {V} (o : list (jsstring * V)) k :
  Sheet.own o k = None <-> k ∉ o.*1.
Proof.
  rewrite own_list_to_map. split.
  - apply not_elem_of_list_to_map_2.
  - apply not_elem_of_list_to_map_1.
Qed.

Lemma get_list_to_map {V} (o : list (jsstring * V)) k :
  Sheet.get o k = Obj.get (list_to_map o) k.
Proof. unfold Sheet.get, Obj.get. by rewrite own_list_to_map. Qed.

Lemma push_fst {A} (o : list (jsstring * list A)) k x :
  (Sheet.push o k x).*1 = o.*1.
Proof.
  unfold Sheet.push. rewrite <- list_fmap_compose. apply list_fmap_ext.
  intros i [k' v] _. simpl. by case_bool_decide.
Qed.

Lemma push_notin {A} (o : list (jsstring * list A)) k x :
  k ∉ o.*1 -> Sheet.push o k x = o.
Proof.
  induction o as [|[k' v] o IH]; [done|]. simpl.
  intros [Hne Hin]%not_elem_of_cons.
  rewrite bool_decide_eq_false_2 by done. f_equal. by apply IH.
Qed.

Lemma list_to_map_push {A} (o : list (jsstring * list A)) k x rows :
  NoDup o.*1 -> Sheet.own o k = Some rows ->
  (list_to_map (Sheet.push o k x) : gmap jsstring (list A))
  = <[k := rows ++ [x]]> (list_to_map o).
Proof.
  induction o as [|[k' v] o IH]; [done|].
  rewrite fmap_cons, NoDup_cons, own_cons. intros [Hk' Hnd]. simpl.
  case_bool_decide as E.
  - intros [= ->]. subst k'. rewrite push_notin by done.
    by rewrite insert_insert_eq.
  - intros Hown. rewrite (IH Hnd Hown). by apply insert_insert_ne.
Qed.

Lemma concat_push {A} (o : list (jsstring * list A)) k x :
  NoDup o.*1 -> k ∈ o.*1 ->
  concat (Sheet.push o k x).*2 ≡ₚ x :: concat o.*2.
Proof.
  induction o as [|[k' v] o IH]; [by intros _ ?%elem_of_nil|].
  rewrite fmap_cons, NoDup_cons. intros [Hk' Hnd]. simpl.
  case_bool_decide as E.
  - intros _. subst k'. rewrite push_notin by done. simpl.
    rewrite <- app_assoc. simpl. symmetry. apply Permutation_middle.
  - intros [?|Hin]%elem_of_cons; [done|]. simpl.
    rewrite (IH Hnd Hin). symmetry. apply Permutation_middle.
Qed.

Lemma groupTask_refines projectMap o task :
  well_formed o ->
  match Sheet.groupTask projectMap o task with
  | Normal o' =>
      Report.groupTask projectMap (list_to_map o) task = Normal (list_to_map o')
      /\ well_formed o'
      /\ concat o'.*2 ≡ₚ Report.row_of task :: concat o.*2
      /\ o'.*1 = (if bool_decide (Report.projectName_of projectMap task ∈ o.*1)
                  then o.*1
                  else o.*1 ++ [Report.projectName_of projectMap task])
  | Throw e => Report.groupTask projectMap (list_to_map o) task = Throw e
  end.
Proof.
  intros [Hnd Hplain]. unfold Sheet.groupTask, Report.groupTask.
  rewrite <- get_list_to_map. unfold Sheet.get.
  set (k := Report.projectName_of projectMap task).
  destruct (Sheet.own o k) as [rows|] eqn:Hown.
  - assert (Hin : k ∈ o.*1).
    { destruct (decide (k ∈ o.*1)) as [|Hn]; [done|].
      apply own_None in Hn. by rewrite Hn in Hown. }
    split; [by rewrite (list_to_map_push _ _ _ _ Hnd Hown)|].
    unfold well_formed. rewrite push_fst.
    split; [done|]. split; [by apply concat_push|].
    by rewrite bool_decide_eq_true_2.
  - case_bool_decide as Hmem; [done|].
    apply own_None in Hown as Hnotin.
    assert (Hnd' : NoDup (o ++ [(k, [])]).*1).
    { rewrite fmap_app. apply NoDup_app. split; [done|]. split.
      - intros k' Hk' ->%list_elem_of_singleton. done.
      - apply NoDup_singleton. }
    assert (Hown' : Sheet.own (o ++ [(k, [])]) k = Some []).
    { rewrite own_list_to_map, list_to_map_snoc by done.
      by rewrite lookup_insert_eq. }
    split.
    { rewrite (list_to_map_push _ _ _ _ Hnd' Hown'), list_to_map_snoc by done.
      by rewrite insert_insert_eq. }
    unfold well_formed. rewrite push_fst, fmap_app. split; [split|].
    + by rewrite <- fmap_app.
    + apply Forall_app. split; [done|]. by apply Forall_singleton.
    + split; [|by rewrite bool_decide_eq_false_2].
      rewrite concat_push; [|done|].
      * rewrite fmap_app, concat_app. simpl. by rewrite app_nil_r.
      * rewrite fmap_app, elem_of_app. right. apply list_elem_of_here.
Qed.

Lemma groupTasks_refines projectMap tasks o :
  well_formed o ->
  match Sheet.groupTasks projectMap tasks o with
  | Normal o' =>
      Report.groupTasks projectMap tasks (list_to_map o)
        = Normal (list_to_map o')
      /\ well_formed o'
      /\ concat o'.*2 ≡ₚ (Report.row_of <$> tasks) ++ concat o.*2
  | Throw e => Report.groupTasks projectMap tasks (list_to_map o) = Throw e
  end.
Proof.
  revert o. induction tasks as [|task tasks IH]; intros o Hwf; simpl; [done|].
  pose proof (groupTask_refines projectMap o task Hwf) as Hstep.
  destruct (Sheet.groupTask projectMap o task) as [o1|e];
    [|by rewrite Hstep].
  destruct Hstep as (-> & Hwf1 & Hperm & _).
  specialize (IH o1 Hwf1).
  destruct (Sheet.groupTasks projectMap tasks o1) as [o'|e]; [|done].
  destruct IH as (-> & Hwf' & Hperm'). split; [done|]. split; [done|].
  rewrite Hperm', Hperm. symmetry. apply Permutation_middle.
Qed.

Lemma groupTasks_snoc projectMap tasks task o :
  Sheet.groupTasks projectMap (tasks ++ [task]) o
  = match Sheet.groupTasks projectMap tasks o with
    | Normal o' => Sheet.groupTask projectMap o' task
    | Throw e => Throw e
    end.
Proof.
  revert o. induction tasks as [|task' tasks IH]; intros o; simpl.
  - by destruct (Sheet.groupTask projectMap o task).
  - destruct (Sheet.groupTask projectMap o task'); [apply IH | done].
Qed.

Lemma groupTasks_well_formed projectMap tasks o o' :
  well_formed o -> Sheet.groupTasks projectMap tasks o = Normal o' ->
  well_formed o'.
Proof.
  intros Hwf Ho'. pose proof (groupTasks_refines projectMap tasks o Hwf) as H.
  rewrite Ho' in H. tauto.
Qed.

Lemma first_seen_snoc names k :
  first_seen (names ++ [k])
  = if bool_decide (k ∈ first_seen names) then first_seen names
    else first_seen names ++ [k].
Proof.
  unfold first_seen. rewrite reverse_snoc. simpl.
  destruct (decide_rel elem_of k (reverse names)) as [Hin|Hn].
  - rewrite bool_decide_eq_true_2; [done|].
    by rewrite elem_of_reverse, elem_of_remove_dups.
  - rewrite bool_decide_eq_false_2, reverse_cons; [done|].
    by rewrite elem_of_reverse, elem_of_remove_dups.
Qed.

Lemma group_keys_first_seen projects tasks o :
  Sheet.group projects tasks = Normal o ->
  o.*1 = first_seen (Report.projectName_of (Report.projectMap_of projects)
                       <$> tasks).
Proof.
  unfold Sheet.group. revert o.
  induction tasks as [|task tasks IH] using rev_ind; intros o.
  - by intros [= <-].
  - rewrite groupTasks_snoc.
    destruct (Sheet.groupTasks _ tasks []) as [o1|e] eqn:E; [|done].
    intros Hstep.
    assert (Hwf : well_formed o1).
    { apply (groupTasks_well_formed (Report.projectMap_of projects) tasks []
               o1); [|done].
      split; [apply NoDup_nil_2 | by apply Forall_nil]. }
    pose proof (groupTask_refines (Report.projectMap_of projects) o1 task Hwf)
      as H.
    rewrite Hstep in H. destruct H as (_ & _ & _ & ->).
    rewrite fmap_app. cbn [fmap list_fmap]. rewrite first_seen_snoc.
    by rewrite (IH o1 eq_refl).
Qed.

(** *** The order of the visit *)

Lemma insert_by_index_Permutation {A} (e : N * A) l :
  Sheet.insert_by_index e l ≡ₚ e :: l.
Proof.
  induction l as [|e' l IH]; simpl; [done|].
  destruct (e.1 <=? e'.1)%N; [done|]. rewrite IH. apply perm_swap.
Qed.

Lemma sort_by_index_Permutation {A} (l : list (N * A)) :
  Sheet.sort_by_index l ≡ₚ l.
Proof.
  induction l as [|e l IH]; simpl; [done|].
  by rewrite insert_by_index_Permutation, IH.
Qed.

Lemma forin_Permutation {V} (o : list (jsstring * V)) : Sheet.forin o ≡ₚ o.
Proof.
  unfold Sheet.forin. rewrite sort_by_index_Permutation.
  induction o as [|[k v] o IH]; [done|].
  rewrite filter_cons. cbn [omap list_omap fst].
  destruct (Sheet.array_index k) as [n|] eqn:E;
    cbn [fmap option_fmap option_map].
  - rewrite decide_False by done. rewrite fmap_cons. cbn [snd app].
    by rewrite IH.
  - rewrite decide_True by done. rewrite <- Permutation_middle. by rewrite IH.
Qed.

Lemma forin_no_index {V} (o : list (jsstring * V)) :
  Forall (fun k => Sheet.array_index k = None) o.*1 -> Sheet.forin o = o.
Proof.
  unfold Sheet.forin. intros H.
  assert (Hidx : omap (fun kv : jsstring * V =>
                         (fun n => (n, kv)) <$> Sheet.array_index kv.1) o = []).
  { induction o as [|[k v] o IH]; [done|].
    rewrite fmap_cons in H. apply Forall_cons in H as [Hk Ho].
    cbn [omap list_omap fst]. simpl in Hk. rewrite Hk. by apply IH. }
  rewrite Hidx. cbn [Sheet.sort_by_index foldr fmap list_fmap app].
  induction o as [|[k v] o IH]; [done|].
  rewrite fmap_cons in H. apply Forall_cons in H as [Hk Ho].
  rewrite filter_cons, decide_True by done. f_equal. apply IH; [done|].
  cbn [omap list_omap fst] in Hidx. simpl in Hk. by rewrite Hk in Hidx.
Qed.

Lemma sections_visit o visit rows :
  Sheet.own o (lit "hasOwnProperty") = None ->
  Forall (fun kv => is_Some (Sheet.own o kv.1)) visit ->
  Sheet.sections o visit rows
  = Normal (rows ++ concat ((fun kv => Sheet.section kv.1 kv.2) <$> visit)).
Proof.
  intros Hown Hall. revert rows.
  induction Hall as [|[k v] visit Hk _ IH]; intros rows; simpl.
  - by rewrite app_nil_r.
  - unfold Sheet.hasOwnProperty. rewrite Hown.
    rewrite bool_decide_eq_true_2 by done. rewrite IH.
    by rewrite <- app_assoc.
Qed.

Lemma sections_length (visit : list (jsstring * list TaskRow)) :
  length (concat ((fun kv => Sheet.section kv.1 kv.2) <$> visit))
  = 3 * length visit + length (concat visit.*2).
Proof.
  induction visit as [|[k v] visit IH]; [done|].
  rewrite !fmap_cons. cbn [concat fst snd]. rewrite !length_app, IH.
  unfold Sheet.section. cbn [length]. rewrite length_app, length_fmap.
  cbn [length]. lia.
Qed.

Lemma well_formed_guard o :
  well_formed o ->
  Sheet.own o (lit "hasOwnProperty") = None
  /\ Forall (fun kv => is_Some (Sheet.own o kv.1)) (Sheet.forin o).
Proof.
  intros [Hnd Hplain]. split.
  - apply own_None. intros Hin.
    refine (proj1 (Forall_forall _ _) Hplain _ Hin _).
    by apply (bool_decide_unpack _).
  - apply Forall_forall. intros [k v] Hin. rewrite forin_Permutation in Hin.
    destruct (Sheet.own o k) eqn:E; [done|]. apply own_None in E.
    destruct E. apply list_elem_of_fmap. by exists (k, v).
Qed.

End sheet_facts.

(** X23: the grouping that keeps the order of creation agrees with the grouping
    as a dictionary: they throw the same error, or the one returns the
    properties of the other; the properties are then distinct, and they were
    created in the order in which the project names first occur among the
    tasks. *)
Theorem grouping_keeps_creation_order (projects : list Project)
    (tasks : list TodoistTask) :
  match Sheet.group projects tasks with
  | Normal o =>
      Report.group projects tasks = Normal (list_to_map o)
      /\ NoDup o.*1
      /\ o.*1 = first_seen (Report.projectName_of
                              (Report.projectMap_of projects) <$> tasks)
  | Throw e => Report.group projects tasks = Throw e
  end.
Proof.
  assert (Hwf : well_formed []).
  { split; [apply NoDup_nil_2 | by apply Forall_nil]. }
  pose proof (groupTasks_refines (Report.projectMap_of projects) tasks [] Hwf)
    as H.
  pose proof (group_keys_first_seen projects tasks) as Hkeys.
  unfold Sheet.group in *.
  destruct (Sheet.groupTasks _ tasks []) as [o|e]; [|done].
  destruct H as (Hg & [Hnd _] & _). split; [done|]. split; [done|].
  by apply Hkeys.
Qed.

(** X24: for a grouping that returned, the loop of [createAndPopulateSheet]
    passes the [hasOwnProperty] guard at every property and throws at none:
    the rows it appends are the title, a spacer and one section for each
    group; a section holds the rows of the tasks of its name in the order of
    the tasks; so every task gets one row, and the sheet gets two rows, three
    for each group and one for each task. *)
Theorem sheet_rows_of_grouping (sheetName : jsstring) (projects : list Project)
    (tasks : list TodoistTask) (o : list (jsstring * list TaskRow)) :
  Sheet.group projects tasks = Normal o ->
  Sheet.appendedRows sheetName o
    = Normal ([sheetName] :: Sheet.spacer
                :: concat ((fun kv => Sheet.section kv.1 kv.2)
                             <$> Sheet.forin o))
  /\ Sheet.forin o ≡ₚ o
  /\ (forall k rows,
        (k, rows) ∈ Sheet.forin o <->
        rows = rows_for (Report.projectMap_of projects) k tasks /\ rows <> [])
  /\ concat (Sheet.forin o).*2 ≡ₚ Report.row_of <$> tasks
  /\ (forall rows,
        Sheet.appendedRows sheetName o = Normal rows ->
        length rows = 2 + 3 * length o + length tasks).
Proof.
  intros Ho.
  assert (Hwf0 : well_formed []).
  { split; [apply NoDup_nil_2 | by apply Forall_nil]. }
  pose proof (groupTasks_refines (Report.projectMap_of projects) tasks []
                Hwf0) as H.
  unfold Sheet.group in Ho. rewrite Ho in H.
  destruct H as (Hg & Hwf & Hperm). simpl in Hperm. rewrite app_nil_r in Hperm.
  destruct (well_formed_guard o Hwf) as [Hown Hall].
  assert (Hrows : Sheet.appendedRows sheetName o
    = Normal ([sheetName] :: Sheet.spacer
                :: concat ((fun kv => Sheet.section kv.1 kv.2)
                             <$> Sheet.forin o))).
  { unfold Sheet.appendedRows. by rewrite (sections_visit o _ _ Hown Hall). }
  split; [done|]. split; [apply forin_Permutation|].
  split; [|split].
  - intros k rows. rewrite forin_Permutation.
    rewrite (elem_of_list_to_map (M := gmap jsstring)) by apply Hwf.
    change (list_to_map []) with (∅ : gmap jsstring (list TaskRow)) in Hg.
    rewrite (group_Normal projects tasks _ Hg).
    destruct (rows_for _ k tasks) as [|row rows'] eqn:E.
    + split; [done | by intros [-> ?]].
    + split; [by intros [= <-] | by intros [-> _]].
  - by rewrite forin_Permutation.
  - intros rows. rewrite Hrows. intros [= <-]. cbn [length].
    rewrite sections_length.
    rewrite (Permutation_length (forin_Permutation o)).
    assert (Hlen : length (concat (Sheet.forin o).*2) = length tasks).
    { rewrite forin_Permutation, Hperm. apply length_fmap. }
    rewrite Hlen. lia.
Qed.

Lemma sheet_rows_of_grouping_witness :
  Sheet.appendedRows (lit "Todoist Report - 3-1-2024")
    [ (lit "Errands", [Report.row_of buy_milk]);
      (lit "Inbox", [Report.row_of no_content]) ]
  = Normal [ [lit "Todoist Report - 3-1-2024"]; Sheet.spacer;
             [lit "Errands"]; [lit "Task"; lit "Due Date"];
             [lit "Buy milk"; lit "No due date"]; Sheet.spacer;
             [lit "Inbox"]; [lit "Task"; lit "Due Date"];
             [[]; lit "No due date"]; Sheet.spacer ].
Proof.
  exact (proj1 (sheet_rows_of_grouping (lit "Todoist Report - 3-1-2024")
                  errands [buy_milk; no_content] _ eq_refl)).
Defined.

(** X25: when no project name in play is an array index, the sections of the
    sheet follow the order in which the project names first occur among the
    tasks. *)
Theorem sections_follow_first_occurrence (projects : list Project)
    (tasks : list TodoistTask) (o : list (jsstring * list TaskRow)) :
  Sheet.group projects tasks = Normal o ->
  Forall (fun task =>
            Sheet.array_index
              (Report.projectName_of (Report.projectMap_of projects) task)
            = None) tasks ->
  (Sheet.forin o).*1
  = first_seen (Report.projectName_of (Report.projectMap_of projects)
                  <$> tasks).
Proof.
  intros Ho Hall. pose proof (group_keys_first_seen projects tasks o Ho) as Hk.
  rewrite forin_no_index; [done|]. rewrite Hk.
  apply Forall_forall. intros k Hin. unfold first_seen in Hin.
  rewrite elem_of_reverse, elem_of_remove_dups, elem_of_reverse in Hin.
  apply list_elem_of_fmap in Hin as (task & -> & Hin).
  by apply (proj1 (Forall_forall _ _) Hall).
Qed.

Lemma sections_follow_first_occurrence_witness :
  exists o,
    Sheet.group errands [no_content; buy_milk; no_content] = Normal o
    /\ (Sheet.forin o).*1 = [lit "Inbox"; lit "Errands"].
Proof.
  eexists. split; [reflexivity|].
  apply (sections_follow_first_occurrence errands
           [no_content; buy_milk; no_content] _ eq_refl).
  repeat (apply Forall_cons; split; [reflexivity|]). by apply Forall_nil.
Defined.
